(** * GANDLF regression and cross-entropy losses

    A shallow embedding of [GANDLF/losses/regression.py].

    - [Python values]: the configuration dictionary [params], the
      exceptions the interpreter raises, and the subscript, [len], [in]
      and [range] operations the source applies to the configuration.
    - [Torch]: the tensor operations the source calls, as an interface.
      Every loss is written against the interface, so a statement proved
      about a loss holds for every implementation of the tensor library.
    - The losses themselves, one definition per Python function, in the
      order and with the evaluation order of the source.  The [torch.nn]
      criteria ([MSELoss], [L1Loss], [BCELoss], ...) and the helper
      [one_hot] of [GANDLF.utils] are not part of the source file and are
      parameters of the functions that call them.
    - [F32]: an executable implementation of the interface on IEEE
      binary32 values (Rocq's [SpecFloat]), used to run the losses on
      concrete tensors.
    - A reference semantics of the regression losses, in which tensors are
      objects on a heap and [+=] and [/=] update them in place; it is
      shown to refine the losses on values. *)

From Stdlib Require Import ZArith List String Ascii Bool Lia Arith.
From Stdlib Require Import DecimalString.
From Stdlib Require Import SpecFloat.
Import ListNotations.

Local Open Scope string_scope.
Local Open Scope list_scope.
Local Open Scope nat_scope.

(** * Python values *)

(** Dictionary keys and sequence indices. *)
Inductive pykey : Type :=
| KStr (s : string)
| KInt (z : Z).

(** The exceptions that can leave the functions of the source file.
    [ValueError] carries the message the source gives it; the others
    carry the key, the variable or a short description. *)
Inductive pyerr : Type :=
| KeyError (k : pykey)
| IndexError (what : string)
| TypeError (what : string)
| AttributeError (what : string)
| ValueError (msg : string)
| ZeroDivisionError
| OverflowError (what : string)
| UnboundLocalError (var : string)
| RuntimeError (what : string).

(** A call either returns a value or raises. *)
Inductive result (A : Type) : Type :=
| Ok (a : A)
| Raise (e : pyerr).

Arguments Ok {A} a.
Arguments Raise {A} e.

Definition bind {A B : Type} (r : result A) (k : A -> result B) : result B :=
  match r with
  | Ok a => k a
  | Raise e => Raise e
  end.

Declare Scope py_scope.
Delimit Scope py_scope with py.
Notation "x <- r ;; k" := (bind r (fun x => k))
  (at level 61, r at next level, right associativity) : py_scope.
Local Open Scope py_scope.

(** A [for] loop over the items of [l] that threads the loop-carried
    variables [s] and stops at the first exception. *)
Fixpoint for_loop {A S : Type} (l : list A) (body : A -> S -> result S) (s : S)
  : result S :=
  match l with
  | [] => Ok s
  | i :: l' => s' <- body i s ;; for_loop l' body s'
  end.

(** Python floats are IEEE binary64 values. *)
Definition float64 : Type := spec_float.
Definition f64_of_Z (z : Z) : float64 := binary_normalize 53 1024 z 0 false.
Definition f64_div (x y : float64) : float64 := SFdiv 53 1024 x y.
Definition f64_is_zero (x : float64) : bool :=
  match x with S754_zero _ => true | _ => false end.

(** The values a configuration is made of.  A dictionary is the list of
    its items in insertion order (its keys are pairwise distinct). *)
#[local] Unset Elimination Schemes.
Inductive pyval : Type :=
| PNone
| PInt (z : Z)
| PFloat (f : float64)
| PStr (s : string)
| PList (l : list pyval)
| PDict (d : list (pykey * pyval)).
#[local] Set Elimination Schemes.

Definition pykey_eqb (a b : pykey) : bool :=
  match a, b with
  | KStr s, KStr t => String.eqb s t
  | KInt x, KInt y => Z.eqb x y
  | _, _ => false
  end.

Fixpoint dict_find (d : list (pykey * pyval)) (k : pykey) : option pyval :=
  match d with
  | [] => None
  | (k', v) :: d' => if pykey_eqb k' k then Some v else dict_find d' k
  end.

(** [l[i]] for a list and a possibly negative index. *)
Definition list_index {A : Type} (l : list A) (i : Z) : option A :=
  let n := Z.of_nat (List.length l) in
  if ((0 <=? i)%Z && (i <? n)%Z)%bool then nth_error l (Z.to_nat i)
  else if ((- n <=? i)%Z && (i <? 0)%Z)%bool then nth_error l (Z.to_nat (n + i))
  else None.

(** [v[k]]. *)
Definition py_getitem (v : pyval) (k : pykey) : result pyval :=
  match v with
  | PDict d =>
      match dict_find d k with
      | Some x => Ok x
      | None => Raise (KeyError k)
      end
  | PList l =>
      match k with
      | KInt i =>
          match list_index l i with
          | Some x => Ok x
          | None => Raise (IndexError "list index out of range")
          end
      | KStr _ => Raise (TypeError "list indices must be integers or slices, not str")
      end
  | PStr s =>
      match k with
      | KInt i =>
          match list_index (list_ascii_of_string s) i with
          | Some c => Ok (PStr (String c EmptyString))
          | None => Raise (IndexError "string index out of range")
          end
      | KStr _ => Raise (TypeError "string indices must be integers")
      end
  | _ => Raise (TypeError "object is not subscriptable")
  end.

(** [v[k1][k2]...[kn]], evaluated from the left. *)
Fixpoint py_path (v : pyval) (ks : list string) : result pyval :=
  match ks with
  | [] => Ok v
  | k :: ks' => x <- py_getitem v (KStr k) ;; py_path x ks'
  end.

(** [v.get(k)]: [None] for a missing key. *)
Definition py_get (v : pyval) (k : pykey) : result pyval :=
  match v with
  | PDict d =>
      match dict_find d k with
      | Some x => Ok x
      | None => Ok PNone
      end
  | _ => Raise (AttributeError "get")
  end.

(** [len(v)]. *)
Definition py_len (v : pyval) : result nat :=
  match v with
  | PDict d => Ok (List.length d)
  | PList l => Ok (List.length l)
  | PStr s => Ok (String.length s)
  | _ => Raise (TypeError "object has no len()")
  end.

(** [list(v.values())]. *)
Definition py_values (v : pyval) : result (list pyval) :=
  match v with
  | PDict d => Ok (map snd d)
  | _ => Raise (AttributeError "values")
  end.

(** [needle in hay] for two strings: [needle] occurs in [hay]. *)
Fixpoint str_contains (needle hay : string) : bool :=
  if String.prefix needle hay then true
  else match hay with
       | EmptyString => false
       | String _ hay' => str_contains needle hay'
       end.

(** [k in v] for a string [k]. *)
Definition py_contains (k : string) (v : pyval) : result bool :=
  match v with
  | PDict d =>
      Ok (match dict_find d (KStr k) with Some _ => true | None => false end)
  | PList l =>
      Ok (existsb (fun x => match x with PStr s => String.eqb s k | _ => false end) l)
  | PStr s => Ok (str_contains k s)
  | _ => Raise (TypeError "argument is not iterable")
  end.

(** [isinstance(v, dict)]. *)
Definition py_is_dict (v : pyval) : bool :=
  match v with PDict _ => true | _ => false end.

(** [v is None]. *)
Definition py_is_none (v : pyval) : bool :=
  match v with PNone => true | _ => false end.

(** [range(0, v)]. *)
Definition py_range (v : pyval) : result (list nat) :=
  match v with
  | PInt n => Ok (seq 0 (Z.to_nat n))
  | _ => Raise (TypeError "object cannot be interpreted as an integer")
  end.

(** [a / b] for two Python numbers (true division). *)
Definition py_number (v : pyval) : option float64 :=
  match v with
  | PInt z => Some (f64_of_Z z)
  | PFloat f => Some f
  | _ => None
  end.

Definition py_truediv (a b : pyval) : result pyval :=
  match py_number a, py_number b with
  | Some x, Some y =>
      if f64_is_zero y then Raise ZeroDivisionError else Ok (PFloat (f64_div x y))
  | _, _ => Raise (TypeError "unsupported operand type(s) for /")
  end.

(** [str(n)] for a natural number, as an f-string prints it. *)
Definition str_of_nat (n : nat) : string := NilZero.string_of_uint (Nat.to_uint n).

(** [s[i]] for a shape [s] and a literal index [i]. *)
Definition shape_at (s : list nat) (i : Z) : result nat :=
  match list_index s i with
  | Some n => Ok n
  | None => Raise (IndexError "tuple index out of range")
  end.

(** * The tensor library

    The operations of [torch] that the source applies to tensors.  Device
    placement ([.to(device)]) does not change a tensor's value and is not
    part of the interface. *)
Class Torch : Type := {
  tensor : Type;
  (** [x.shape] *)
  t_shape : tensor -> list nat;
  (** [torch.squeeze(x, -1)] *)
  t_squeeze_last : tensor -> tensor;
  (** [torch.FloatTensor(l)] for a Python list [l] *)
  t_FloatTensor : list pyval -> result tensor;
  (** [torch.as_tensor(v)] *)
  t_as_tensor : pyval -> result tensor;
  (** [x.float()] *)
  t_float : tensor -> tensor;
  (** [x.byte()] *)
  t_byte : tensor -> tensor;
  (** [x.type(y.dtype)] *)
  t_type_as : tensor -> tensor -> tensor;
  (** [x.contiguous().view(-1)] *)
  t_flatten : tensor -> tensor;
  (** [x[:, i, ...]] *)
  t_select : tensor -> nat -> result tensor;
  (** [x == y] *)
  t_eq : tensor -> tensor -> result tensor;
  (** [bool(torch.all(x))] *)
  t_all : tensor -> bool;
  (** [x * y] *)
  t_mul : tensor -> tensor -> result tensor;
  (** [x * v] for a Python value [v] *)
  t_mul_scalar : tensor -> pyval -> result tensor;
  (** [v + x] for a Python value [v] that is not a tensor *)
  t_radd_scalar : pyval -> tensor -> result tensor;
  (** [x += y], the new value of [x] *)
  t_iadd : tensor -> tensor -> result tensor;
  (** [x /= v] for a Python value [v], the new value of [x] *)
  t_idiv_scalar : tensor -> pyval -> result tensor
}.

(** What a variable such as [acc_mse_loss] holds: a plain Python value
    (the initial [0]) or a tensor. *)
Inductive pyobject (T : Type) : Type :=
| OVal (v : pyval)
| OTensor (t : T).

Arguments OVal {T} v.
Arguments OTensor {T} t.

Definition pyobj `{Torch} : Type := pyobject tensor.

Section PythonOperators.
Context `{Torch}.

(** [acc += x] for a tensor [x].  An [int] has no in-place addition and
    its [__add__] does not accept a tensor, so the interpreter calls
    [x.__radd__(acc)], which builds a new tensor; a tensor is updated
    in place. *)
Definition py_iadd (acc : pyobj) (x : tensor) : result pyobj :=
  match acc with
  | OVal v => t <- t_radd_scalar v x ;; Ok (OTensor t)
  | OTensor a => t <- t_iadd a x ;; Ok (OTensor t)
  end.

(** [acc /= d] for a Python value [d]. *)
Definition py_itruediv (acc : pyobj) (d : pyval) : result pyobj :=
  match acc with
  | OVal v => q <- py_truediv v d ;; Ok (OVal q)
  | OTensor a => t <- t_idiv_scalar a d ;; Ok (OTensor t)
  end.

(** The running sum [0 + l0 + l1 + ...] of a list of per-class losses,
    accumulated from the left as the loops of the source do. *)
Definition py_sum (ls : list tensor) : result pyobj :=
  for_loop ls (fun l acc => py_iadd acc l) (OVal (PInt 0)).
End PythonOperators.

(** * The losses *)

(** Default arguments of [L1] and [MSE]. *)
Definition default_reduction : pyval := PStr "mean".
Definition default_scaling_factor : pyval := PInt 1.

Section Losses.
Context `{Torch}.

(** The criteria of [torch.nn]: the call [C(args)(x, y)] of a criterion
    built with [args]. *)
Variable CrossEntropyLoss : option tensor -> tensor -> tensor -> result tensor.
Variable BCEWithLogitsLoss : tensor -> tensor -> result tensor.
Variable BCELoss : tensor -> tensor -> result tensor.
Variable L1Loss : pyval -> tensor -> tensor -> result tensor.
Variable MSELoss : pyval -> tensor -> tensor -> result tensor.

(** [GANDLF.utils.one_hot(target, class_list)]. *)
Variable one_hot : tensor -> pyval -> result tensor.

Definition CEL (out target : tensor) (params : pyval) : result tensor :=
  let target :=
    if ((1 <? List.length (t_shape target)) && (last (t_shape target) 0 =? 1))%bool
    then t_squeeze_last target
    else target in
  w <- py_get params (KStr "weights") ;;
  weights <-
    (if py_is_none w then Ok None
     else
       pw <- py_getitem params (KStr "weights") ;;
       num_classes <- py_len pw ;;
       c <- shape_at (t_shape out) (-1) ;;
       if negb (c =? num_classes) then
         Raise (ValueError ("Number of classes " ++ str_of_nat num_classes
                            ++ " does not match output shape " ++ str_of_nat c))
       else
         pw <- py_getitem params (KStr "weights") ;;
         vs <- py_values pw ;;
         weights <- t_FloatTensor vs ;;
         Ok (Some (t_float weights))) ;;
  CrossEntropyLoss weights out target.

Definition CE_Logits (out target : tensor) : result tensor :=
  same <- t_eq (t_byte target) target ;;
  if negb (t_all same) then
    Raise (ValueError "Target tensor must be binary (0 or 1)")
  else
    BCEWithLogitsLoss (t_flatten out) (t_flatten target).

Definition CE (out target : tensor) : result tensor :=
  same <- t_eq (t_byte target) target ;;
  if negb (t_all same) then
    Raise (ValueError "Target tensor must be binary (0 or 1)")
  else
    BCELoss (t_float (t_flatten out)) (t_float (t_flatten target)).

(** Lines 87 to 94 of [CCE_Generic]: the one-hot expansion and the loop
    over the classes, returning [acc_ce_loss]. *)
Definition CCE_Generic_loop (out target : tensor) (params : pyval)
    (CCE_Type : tensor -> tensor -> result tensor) : result pyobj :=
  let acc_ce_loss := OVal (PInt 0) in
  class_list <- py_path params ["model"; "class_list"] ;;
  hot <- one_hot target class_list ;;
  let target := t_type_as hot out in
  class_list <- py_path params ["model"; "class_list"] ;;
  n <- py_len class_list ;;
  for_loop (seq 0 n)
    (fun i acc_ce_loss =>
       x <- t_select out i ;;
       y <- t_select target i ;;
       curr_ce_loss <- CCE_Type x y ;;
       w <- py_getitem params (KStr "weights") ;;
       curr_ce_loss <-
         (if negb (py_is_none w) then
            ws <- py_getitem params (KStr "weights") ;;
            wi <- py_getitem ws (KInt (Z.of_nat i)) ;;
            t_mul_scalar curr_ce_loss wi
          else Ok curr_ce_loss) ;;
       py_iadd acc_ce_loss curr_ce_loss)
    acc_ce_loss.

(** [total_loss] is a local variable of the function (it is assigned on
    line 98) and has no value when the right-hand side of that
    assignment reads it. *)
Definition CCE_Generic (out target : tensor) (params : pyval)
    (CCE_Type : tensor -> tensor -> result tensor) : result pyobj :=
  acc_ce_loss <- CCE_Generic_loop out target params CCE_Type ;;
  w <- py_getitem params (KStr "weights") ;;
  if py_is_none w then Raise (UnboundLocalError "total_loss")
  else Ok acc_ce_loss.

Definition L1 (output label : tensor) (reduction scaling_factor : pyval)
  : result tensor :=
  scaling_factor <- t_as_tensor scaling_factor ;;
  let label := t_float label in
  label <- t_mul label scaling_factor ;;
  let iflat := t_flatten output in
  let tflat := t_flatten label in
  L1Loss reduction iflat tflat.

Definition L1_loss (inp target : tensor) (params : pyval) : result pyobj :=
  let acc_mse_loss := OVal (PInt 0) in
  batch <- shape_at (t_shape inp) 0 ;;
  acc_mse_loss <-
    (if batch =? 1 then
       if negb (py_is_none params) then
         reduction <- py_path params ["loss_function"; "l1"; "reduction"] ;;
         scaling_factor <- py_getitem params (KStr "scaling_factor") ;;
         l <- L1 inp target reduction scaling_factor ;;
         py_iadd acc_mse_loss l
       else
         l <- L1 inp target default_reduction default_scaling_factor ;;
         py_iadd acc_mse_loss l
     else
       if negb (py_is_none params) then
         num_classes <- py_path params ["model"; "num_classes"] ;;
         classes <- py_range num_classes ;;
         for_loop classes
           (fun i acc_mse_loss =>
              x <- t_select inp i ;;
              y <- t_select target i ;;
              reduction <- py_path params ["loss_function"; "mse"; "reduction"] ;;
              scaling_factor <- py_getitem params (KStr "scaling_factor") ;;
              l <- L1 x y reduction scaling_factor ;;
              py_iadd acc_mse_loss l)
           acc_mse_loss
       else
         channels <- shape_at (t_shape inp) 1 ;;
         for_loop (seq 0 channels)
           (fun i acc_mse_loss =>
              x <- t_select inp i ;;
              y <- t_select target i ;;
              l <- L1 x y default_reduction default_scaling_factor ;;
              py_iadd acc_mse_loss l)
           acc_mse_loss) ;;
  if negb (py_is_none params) then
    num_classes <- py_path params ["model"; "num_classes"] ;;
    py_itruediv acc_mse_loss num_classes
  else
    channels <- shape_at (t_shape inp) 1 ;;
    py_itruediv acc_mse_loss (PInt (Z.of_nat channels)).

Definition MSE (output label : tensor) (reduction scaling_factor : pyval)
  : result tensor :=
  scaling_factor <- t_as_tensor scaling_factor ;;
  let label := t_float label in
  label <- t_mul label scaling_factor ;;
  let iflat := t_flatten output in
  let tflat := t_flatten label in
  MSELoss reduction iflat tflat.

(** Lines 207 to 211 of [MSE_loss]: the reduction the configuration
    asks for. *)
Definition MSE_loss_reduction (params : pyval) : result pyval :=
  let reduction := PStr "mean" in
  if negb (py_is_none params) then
    lf <- py_getitem params (KStr "loss_function") ;;
    has_mse <- py_contains "mse" lf ;;
    if has_mse then
      mse <- py_path params ["loss_function"; "mse"] ;;
      if py_is_dict mse then
        py_path params ["loss_function"; "mse"; "reduction"]
      else Ok reduction
    else Ok reduction
  else Ok reduction.

Definition MSE_loss (inp target : tensor) (params : pyval) : result pyobj :=
  let acc_mse_loss := OVal (PInt 0) in
  reduction <- MSE_loss_reduction params ;;
  batch <- shape_at (t_shape inp) 0 ;;
  acc_mse_loss <-
    (if batch =? 1 then
       if negb (py_is_none params) then
         scaling_factor <- py_getitem params (KStr "scaling_factor") ;;
         l <- MSE inp target reduction scaling_factor ;;
         py_iadd acc_mse_loss l
       else
         l <- MSE inp target default_reduction default_scaling_factor ;;
         py_iadd acc_mse_loss l
     else
       if negb (py_is_none params) then
         num_classes <- py_path params ["model"; "num_classes"] ;;
         classes <- py_range num_classes ;;
         for_loop classes
           (fun i acc_mse_loss =>
              x <- t_select inp i ;;
              y <- t_select target i ;;
              scaling_factor <- py_getitem params (KStr "scaling_factor") ;;
              l <- MSE x y reduction scaling_factor ;;
              py_iadd acc_mse_loss l)
           acc_mse_loss
       else
         channels <- shape_at (t_shape inp) 1 ;;
         for_loop (seq 0 channels)
           (fun i acc_mse_loss =>
              x <- t_select inp i ;;
              y <- t_select target i ;;
              l <- MSE x y default_reduction default_scaling_factor ;;
              py_iadd acc_mse_loss l)
           acc_mse_loss) ;;
  if negb (py_is_none params) then
    num_classes <- py_path params ["model"; "num_classes"] ;;
    py_itruediv acc_mse_loss num_classes
  else
    channels <- shape_at (t_shape inp) 1 ;;
    py_itruediv acc_mse_loss (PInt (Z.of_nat channels)).
End Losses.

(** * An executable tensor library on binary32

    Tensors of four element types, stored in row-major order.  Arithmetic
    on [Float32] is IEEE binary32 with round-to-nearest-even; [Int64] and
    [UInt8] wrap around; [Bool] saturates.  Type promotion follows
    [torch.result_type]: a tensor with dimensions has priority over a
    0-dimensional tensor, which has priority over a Python number, unless
    the lower-priority operand is of a higher category
    (bool < integer < float). *)
Module F32.

Definition float32 : Type := spec_float.
Definition f32_of_Z (z : Z) : float32 := binary_normalize 24 128 z 0 false.
Definition f32_add : float32 -> float32 -> float32 := SFadd 24 128.
Definition f32_sub : float32 -> float32 -> float32 := SFsub 24 128.
Definition f32_mul : float32 -> float32 -> float32 := SFmul 24 128.
Definition f32_div : float32 -> float32 -> float32 := SFdiv 24 128.

(** Rounding of a binary64 value to binary32. *)
Definition f32_of_f64 (f : float64) : float32 :=
  match f with
  | S754_finite s m e => binary_normalize 24 128 (cond_Zopp s (Zpos m)) e s
  | _ => f
  end.

(** The integer part of a float (rounding toward zero).  The conversion of
    a NaN or an infinity to an integer is left open by C++; it is 0 here. *)
Definition f32_trunc (x : float32) : Z :=
  match x with
  | S754_finite s m e =>
      cond_Zopp s (if (0 <=? e)%Z then Z.shiftl (Zpos m) e
                   else Z.shiftr (Zpos m) (- e))
  | _ => 0%Z
  end.

Inductive dtype : Type := Bool | UInt8 | Int64 | Float32.

Inductive scalar : Type :=
| SInt (z : Z)
| SFloat (x : float32).

Record tensor : Type := mk_tensor {
  dtype_of : dtype;
  shape : list nat;
  data : list scalar
}.

Definition dtype_eqb (a b : dtype) : bool :=
  match a, b with
  | Bool, Bool | UInt8, UInt8 | Int64, Int64 | Float32, Float32 => true
  | _, _ => false
  end.

Definition rank (d : dtype) : nat :=
  match d with Bool => 0 | UInt8 => 1 | Int64 => 2 | Float32 => 3 end.

Definition category (d : dtype) : nat :=
  match d with Bool => 0 | UInt8 | Int64 => 1 | Float32 => 2 end.

(** [torch.promote_types]. *)
Definition promote (a b : dtype) : dtype := if rank a <? rank b then b else a.

(** How two priority classes combine: [higher] wins unless [lower] is of
    a higher category. *)
Definition combine (higher lower : dtype) : dtype :=
  if category higher <? category lower then promote higher lower else higher.

(** [torch.can_cast], which an in-place operation applies to its result. *)
Definition can_cast (from to : dtype) : bool := category from <=? category to.

Definition to_Z (s : scalar) : Z :=
  match s with SInt z => z | SFloat x => f32_trunc x end.

Definition to_f32 (s : scalar) : float32 :=
  match s with SInt z => f32_of_Z z | SFloat x => x end.

Definition scalar_nonzero (s : scalar) : bool :=
  match s with
  | SInt z => negb (z =? 0)%Z
  | SFloat (S754_zero _) => false
  | SFloat _ => true
  end.

Definition wrap64 (z : Z) : Z := ((z + 2 ^ 63) mod 2 ^ 64 - 2 ^ 63)%Z.

Definition cast (d : dtype) (s : scalar) : scalar :=
  match d with
  | Float32 => SFloat (to_f32 s)
  | Int64 => SInt (wrap64 (to_Z s))
  | UInt8 => SInt (to_Z s mod 256)
  | Bool => SInt (if scalar_nonzero s then 1 else 0)
  end.

(** One arithmetic operation, computed in the element type [d]. *)
Definition scalar_op (ff : float32 -> float32 -> float32) (fi : Z -> Z -> Z)
    (d : dtype) (x y : scalar) : scalar :=
  match d with
  | Float32 => SFloat (ff (to_f32 x) (to_f32 y))
  | _ => cast d (SInt (fi (to_Z (cast d x)) (to_Z (cast d y))))
  end.

Definition scalar_eqb (d : dtype) (x y : scalar) : bool :=
  match d with
  | Float32 => SFeqb (to_f32 x) (to_f32 y)
  | _ => (to_Z (cast d x) =? to_Z (cast d y))%Z
  end.

(** ** Shapes and broadcasting *)

Definition numel (s : list nat) : nat := fold_right Nat.mul 1 s.

Fixpoint shape_eqb (a b : list nat) : bool :=
  match a, b with
  | [], [] => true
  | x :: a', y :: b' => (x =? y) && shape_eqb a' b'
  | _, _ => false
  end.

(** [k] consecutive chunks of [n] items. *)
Fixpoint chunks {A : Type} (n k : nat) (l : list A) : list (list A) :=
  match k with
  | O => []
  | S k' => firstn n l :: chunks n k' (skipn n l)
  end.

(** Broadcasting of two shapes given from the last dimension to the
    first. *)
Fixpoint broadcast_rev (a b : list nat) : option (list nat) :=
  match a, b with
  | [], _ => Some b
  | _, [] => Some a
  | x :: a', y :: b' =>
      match broadcast_rev a' b' with
      | None => None
      | Some r =>
          if x =? y then Some (x :: r)
          else if x =? 1 then Some (y :: r)
          else if y =? 1 then Some (x :: r)
          else None
      end
  end.

Definition broadcast_shapes (a b : list nat) : option (list nat) :=
  option_map (@rev nat) (broadcast_rev (rev a) (rev b)).

(** The items of a tensor of shape [from] repeated to fill the shape [to];
    the two shapes have the same number of dimensions and [from] has
    size 1 wherever it differs from [to]. *)
Fixpoint expand {A : Type} (from to : list nat) (l : list A) : list A :=
  match from, to with
  | f :: from', t :: to' =>
      if f =? t then
        List.concat (map (expand from' to') (chunks (numel from') f l))
      else
        List.concat (repeat (expand from' to' l) t)
  | _, _ => l
  end.

(** Missing leading dimensions count as 1. *)
Definition pad_shape (s : list nat) (n : nat) : list nat :=
  repeat 1 (n - List.length s) ++ s.

Definition expand_to (s to : list nat) (l : list scalar) : list scalar :=
  expand (pad_shape s (List.length to)) to l.

Fixpoint zip_with {A B C : Type} (f : A -> B -> C) (l : list A) (m : list B)
  : list C :=
  match l, m with
  | x :: l', y :: m' => f x y :: zip_with f l' m'
  | _, _ => []
  end.

Definition is_dim (t : tensor) : bool := negb (List.length (shape t) =? 0).

(** [torch.result_type] of two tensors. *)
Definition result_type (a b : tensor) : dtype :=
  if Bool.eqb (is_dim a) (is_dim b) then promote (dtype_of a) (dtype_of b)
  else if is_dim a then combine (dtype_of a) (dtype_of b)
  else combine (dtype_of b) (dtype_of a).

(** A Python number as an operand: its default element type and value. *)
Definition wrapped (v : pyval) : option (dtype * scalar) :=
  match v with
  | PInt z => Some (Int64, SInt z)
  | PFloat f => Some (Float32, SFloat (f32_of_f64 f))
  | _ => None
  end.

(** ** The operations of the interface *)

Definition squeeze_last (t : tensor) : tensor :=
  match rev (shape t) with
  | 1 :: s => mk_tensor (dtype_of t) (rev s) (data t)
  | _ => t
  end.

Definition cast_tensor (d : dtype) (t : tensor) : tensor :=
  mk_tensor d (shape t) (map (cast d) (data t)).

Definition flatten (t : tensor) : tensor :=
  mk_tensor (dtype_of t) [List.length (data t)] (data t).

Definition select (t : tensor) (i : nat) : result tensor :=
  match shape t with
  | b :: c :: rest =>
      if i <? c then
        let inner := numel rest in
        Ok (mk_tensor (dtype_of t) (b :: rest)
              (flat_map (fun sample => firstn inner (skipn (i * inner) sample))
                 (chunks (c * inner) b (data t))))
      else Raise (IndexError "index is out of bounds for dimension 1")
  | _ => Raise (IndexError "too many indices for tensor")
  end.

Definition binary (ff : float32 -> float32 -> float32) (fi : Z -> Z -> Z)
    (a b : tensor) : result tensor :=
  match broadcast_shapes (shape a) (shape b) with
  | None => Raise (RuntimeError "shapes cannot be broadcast")
  | Some s =>
      let d := result_type a b in
      Ok (mk_tensor d s
            (zip_with (scalar_op ff fi d)
               (expand_to (shape a) s (data a))
               (expand_to (shape b) s (data b))))
  end.

Definition mul : tensor -> tensor -> result tensor := binary f32_mul Z.mul.

Definition equal (a b : tensor) : result tensor :=
  match broadcast_shapes (shape a) (shape b) with
  | None => Raise (RuntimeError "shapes cannot be broadcast")
  | Some s =>
      let d := result_type a b in
      Ok (mk_tensor Bool s
            (zip_with (fun x y => SInt (if scalar_eqb d x y then 1 else 0))
               (expand_to (shape a) s (data a))
               (expand_to (shape b) s (data b))))
  end.

Definition all (t : tensor) : bool := forallb scalar_nonzero (data t).

(** A Python [int] that is an operand of a tensor is unpacked into a C++
    [int64_t]. *)
Definition in_int64 (v : pyval) : bool :=
  match v with
  | PInt z => ((- 2 ^ 63 <=? z) && (z <? 2 ^ 63))%Z
  | _ => true
  end.

(** [x op v] and [v op x] for a Python number [v]: [v] takes the place
    of every item of the other operand. *)
Definition with_scalar (op : dtype -> scalar -> scalar -> scalar)
    (t : tensor) (v : pyval) : result tensor :=
  match wrapped v with
  | None => Raise (TypeError "unsupported operand type(s)")
  | Some (dv, s) =>
      if negb (in_int64 v) then Raise (RuntimeError "Overflow when unpacking long")
      else
        let d := combine (dtype_of t) dv in
        Ok (mk_tensor d (shape t) (map (fun x => op d x s) (data t)))
  end.

Definition mul_scalar : tensor -> pyval -> result tensor :=
  with_scalar (scalar_op f32_mul Z.mul).

Definition radd_scalar (v : pyval) (t : tensor) : result tensor :=
  with_scalar (scalar_op f32_add Z.add) t v.

Definition iadd (a b : tensor) : result tensor :=
  match broadcast_shapes (shape a) (shape b) with
  | None => Raise (RuntimeError "shapes cannot be broadcast")
  | Some s =>
      if negb (shape_eqb s (shape a)) then
        Raise (RuntimeError "output shape does not match the broadcast shape")
      else
        let d := result_type a b in
        if negb (can_cast d (dtype_of a)) then
          Raise (RuntimeError "result type cannot be cast to the output type")
        else
          Ok (mk_tensor (dtype_of a) s
                (zip_with (fun x y => cast (dtype_of a) (scalar_op f32_add Z.add d x y))
                   (data a)
                   (expand_to (shape b) s (data b))))
  end.

(** True division always computes in floating point. *)
Definition idiv_scalar (a : tensor) (v : pyval) : result tensor :=
  match wrapped v with
  | None => Raise (TypeError "unsupported operand type(s)")
  | Some (_, s) =>
      if negb (in_int64 v) then Raise (RuntimeError "Overflow when unpacking long")
      else if negb (can_cast Float32 (dtype_of a)) then
        Raise (RuntimeError "result type Float cannot be cast to the output type")
      else
        Ok (mk_tensor (dtype_of a) (shape a)
              (map (fun x => SFloat (f32_div (to_f32 x) (to_f32 s))) (data a)))
  end.

(** ** Tensors from Python values *)

(** The shape of a number or a nested list of numbers, and its numbers
    in row-major order. *)
Fixpoint nested (v : pyval) : result (list nat * list pyval) :=
  match v with
  | PInt _ | PFloat _ => Ok ([], [v])
  | PList l =>
      rows <- (fix each (l : list pyval) : result (list (list nat * list pyval)) :=
                 match l with
                 | [] => Ok []
                 | x :: l' => r <- nested x ;; rs <- each l' ;; Ok (r :: rs)
                 end) l ;;
      match rows with
      | [] => Ok ([0], [])
      | (s, _) :: _ =>
          if forallb (fun r => shape_eqb (fst r) s) rows
          then Ok (List.length rows :: s, flat_map snd rows)
          else Raise (ValueError "expected sequences of equal length")
      end
  | PNone => Raise (RuntimeError "Could not infer dtype of NoneType")
  | PStr _ => Raise (TypeError "invalid data type str")
  | PDict _ => Raise (RuntimeError "Could not infer dtype of dict")
  end.

Definition is_int (v : pyval) : bool :=
  match v with PInt _ => true | _ => false end.

(** An [int] stored as a float goes through a C [double]; Python refuses
    the conversion when the nearest double would be infinite. *)
Definition fits_double (v : pyval) : bool :=
  match v with
  | PInt z => (Z.abs z <? 2 ^ 1024 - 2 ^ 970)%Z
  | _ => true
  end.

Definition float_item (v : pyval) : scalar :=
  match v with
  | PInt z => SFloat (f32_of_f64 (f64_of_Z z))
  | PFloat f => SFloat (f32_of_f64 f)
  | _ => SFloat S754_nan
  end.

Definition int_item (v : pyval) : scalar :=
  match v with
  | PInt z => SInt z
  | _ => SInt 0
  end.

Definition float_items (s : list nat) (l : list pyval) : result tensor :=
  if negb (forallb fits_double l) then
    Raise (OverflowError "int too large to convert to float")
  else Ok (mk_tensor Float32 s (map float_item l)).

(** [torch.as_tensor]: [Int64] when every number is an [int], [Float32]
    otherwise. *)
Definition as_tensor (v : pyval) : result tensor :=
  sl <- nested v ;;
  let (s, l) := sl in
  if (forallb is_int l && negb (List.length l =? 0))%bool then
    if negb (forallb in_int64 l) then
      Raise (RuntimeError "Overflow when unpacking long")
    else Ok (mk_tensor Int64 s (map int_item l))
  else float_items s l.

(** [torch.FloatTensor]: every number is stored as a [Float32]. *)
Definition FloatTensor (l : list pyval) : result tensor :=
  sl <- nested (PList l) ;;
  let (s, l) := sl in
  float_items s l.

Definition backend : Torch :=
  Build_Torch tensor shape squeeze_last FloatTensor as_tensor
    (cast_tensor Float32) (cast_tensor UInt8)
    (fun x y => cast_tensor (dtype_of y) x)
    flatten select equal all mul mul_scalar radd_scalar iadd idiv_scalar.

(** ** The regression criteria

    [torch.nn.MSELoss] and [torch.nn.L1Loss] as their documentation
    defines them: the operands are broadcast against each other, the
    pointwise loss is computed in binary32, and the items are kept
    (["none"]), added up (["sum"]) or averaged (["mean"]).  The items are
    added in index order; torch may add them in another order, which
    gives the same value whenever the partial sums are exact. *)
Definition criterion (pointwise : float32 -> float32 -> float32)
    (reduction : pyval) (x y : tensor) : result tensor :=
  match broadcast_shapes (shape x) (shape y) with
  | None => Raise (RuntimeError "shapes cannot be broadcast")
  | Some s =>
      let items := zip_with (fun a b => pointwise (to_f32 a) (to_f32 b))
                     (expand_to (shape x) s (data x))
                     (expand_to (shape y) s (data y)) in
      let total := fold_left f32_add items (S754_zero false) in
      match reduction with
      | PStr r =>
          if String.eqb r "none" then
            Ok (mk_tensor Float32 s (map SFloat items))
          else if String.eqb r "sum" then
            Ok (mk_tensor Float32 [] [SFloat total])
          else if String.eqb r "mean" then
            Ok (mk_tensor Float32 []
                  [SFloat (f32_div total (f32_of_Z (Z.of_nat (List.length items))))])
          else Raise (ValueError (r ++ " is not a valid value for reduction"))
      | _ => Raise (ValueError "not a valid value for reduction")
      end
  end.

Definition MSELoss : pyval -> tensor -> tensor -> result tensor :=
  criterion (fun a b => f32_mul (f32_sub a b) (f32_sub a b)).

Definition L1Loss : pyval -> tensor -> tensor -> result tensor :=
  criterion (fun a b => SFabs (f32_sub a b)).

(** Modelled from the spec: [GANDLF.utils.one_hot] is not among the
    source files.  The specification says that the target "is one-hot
    expanded against [params.model.class_list]", that a one-hot encoding
    represents "a categorical label as a vector with a single active
    position per class", and that tensors have the shape
    [[batch, class, spatial...]].  Here a target of shape
    [[batch, spatial...]] that holds class identifiers becomes the [Bool]
    tensor of shape [[batch, class, spatial...]] whose item at
    [(b, c, s)] tells whether the target at [(b, s)] is the [c]-th
    identifier of the list. *)
Definition one_hot (target : tensor) (class_list : pyval) : result tensor :=
  match class_list, shape target with
  | PList ids, b :: rest =>
      if negb (forallb is_int ids) then
        Raise (TypeError "class identifiers must be integers")
      else
        let d := combine (dtype_of target) Int64 in
        Ok (mk_tensor Bool (b :: List.length ids :: rest)
              (flat_map
                 (fun sample =>
                    flat_map
                      (fun id =>
                         map (fun x => SInt (if scalar_eqb d x (int_item id)
                                             then 1 else 0)) sample)
                      ids)
                 (chunks (numel rest) b (data target))))
  | PList _, [] => Raise (IndexError "tuple index out of range")
  | _, _ => Raise (TypeError "class_list is not a list")
  end.

(** A binary32 tensor from integers, and a binary64 number [m * 2^e]. *)
Definition of_ints (s : list nat) (l : list Z) : tensor :=
  mk_tensor Float32 s (map (fun z => SFloat (f32_of_Z z)) l).

Definition py_float (m e : Z) : pyval := PFloat (binary_normalize 53 1024 m e false).
End F32.

(** * Vocabulary of the statements *)

Section Vocabulary.
Context `{Torch}.

(** The loss of class [i]: [prim(inp[:, i, ...], target[:, i, ...])]. *)
Definition per_class (prim : tensor -> tensor -> result tensor)
    (inp target : tensor) (i : nat) : result tensor :=
  x <- t_select inp i ;;
  y <- t_select target i ;;
  prim x y.

(** The weighted loss of class [i]:
    [prim(out[:, i, ...], target[:, i, ...]) * weights[i]]. *)
Definition weighted_class (prim : tensor -> tensor -> result tensor)
    (weights : pyval) (out target : tensor) (i : nat) : result tensor :=
  l <- per_class prim out target i ;;
  wi <- py_getitem weights (KInt (Z.of_nat i)) ;;
  t_mul_scalar l wi.

(** [ls] are the values of [f] at the indices [0 .. n-1]. *)
Definition values_at (f : nat -> result tensor) (n : nat) (ls : list tensor)
  : Prop :=
  Forall2 (fun i l => f i = Ok l) (seq 0 n) ls.

(** The losses [ls] added up and divided by [d], written with the tensor
    operations the interpreter calls: [0 + l0] is [l0.__radd__(0)] and
    builds the accumulator, every further loss is added to the
    accumulator in place, from the left, and the accumulator is divided
    in place.  With no loss at all the accumulator is still the [int] 0
    and the division is that of two Python numbers. *)
Definition summed_and_divided (ls : list tensor) (d : pyval) : result pyobj :=
  match ls with
  | [] => q <- py_truediv (PInt 0) d ;; Ok (OVal q)
  | l0 :: rest =>
      first <- t_radd_scalar (PInt 0) l0 ;;
      total <- fold_left (fun acc l => a <- acc ;; t_iadd a l) rest (Ok first) ;;
      mean <- t_idiv_scalar total d ;;
      Ok (OTensor mean)
  end.

(** The mean of [ls]: their running sum divided by their number. *)
Definition py_mean (ls : list tensor) : result pyobj :=
  s <- py_sum ls ;;
  py_itruediv s (PInt (Z.of_nat (List.length ls))).

(** The mean of [ls] divided again by [n]. *)
Definition divided_again (ls : list tensor) (n : Z) : result pyobj :=
  m <- py_mean ls ;;
  py_itruediv m (PInt n).

(** The target [CEL] hands to the criterion: a trailing dimension of size
    1 is squeezed away. *)
Definition CEL_target (target : tensor) : tensor :=
  if ((1 <? List.length (t_shape target)) && (last (t_shape target) 0 =? 1))%bool
  then t_squeeze_last target
  else target.
End Vocabulary.

(** * Reference semantics

    Python variables hold references, and [acc += x] and [acc /= n]
    update a tensor in place.  This section runs [L1], [MSE], [L1_loss]
    and [MSE_loss] on a heap of tensor objects.  Every object records the
    storage it lives in: an operation that returns a view of its operand
    ([x[:, i, ...]], [x.view(-1)], and [x.float()], which may return [x]
    itself) returns an object in the operand's storage, every other
    operation one in a storage of its own, and an in-place update of an
    object makes all other objects in the same storage unreadable. *)

Record cell {T : Type} : Type := mk_cell {
  storage : nat;
  content : option T
}.
Arguments cell T : clear implicits.
Arguments mk_cell {T} storage content.

(** What a variable holds under reference semantics: a plain Python value
    or the address of a tensor object. *)
Inductive pyref : Type :=
| RVal (v : pyval)
| RRef (r : nat).

(** A computation on the heap [H]: its outcome and the heap it leaves. *)
Definition run (H A : Type) : Type := H -> result A * H.

Definition unit_run {H A : Type} (a : A) : run H A := fun h => (Ok a, h).

Definition bind_run {H A B : Type} (m : run H A) (k : A -> run H B) : run H B :=
  fun h =>
    match m h with
    | (Ok a, h') => k a h'
    | (Raise e, h') => (Raise e, h')
    end.

Definition lift {H A : Type} (r : result A) : run H A := fun h => (r, h).

Notation "x <~ m ;; k" := (bind_run m (fun x => k))
  (at level 61, m at next level, right associativity) : py_scope.

Fixpoint for_loop_run {H A S : Type} (l : list A) (body : A -> S -> run H S)
    (s : S) : run H S :=
  match l with
  | [] => unit_run s
  | i :: l' => s' <~ body i s ;; for_loop_run l' body s'
  end.

(** The heap after an in-place update of the object at address [r], which
    lives in storage [s]: that object holds [t], and the other objects of
    the storage hold nothing any more.  [k] is the address of the first
    cell of [h]. *)
Fixpoint store_at {T : Type} (k r s : nat) (t : T) (h : list (cell T))
  : list (cell T) :=
  match h with
  | [] => []
  | c :: h' =>
      (if k =? r then mk_cell s (Some t)
       else if storage c =? s then mk_cell (storage c) None
       else c) :: store_at (S k) r s t h'
  end.

Section ReferenceSemantics.
Context `{Torch}.
Variable L1Loss : pyval -> tensor -> tensor -> result tensor.
Variable MSELoss : pyval -> tensor -> tensor -> result tensor.

Definition heap : Type := list (cell tensor).

(** The tensor the object at [r] holds. *)
Definition value_at (h : heap) (r : nat) : option tensor :=
  match nth_error h r with
  | Some c => content c
  | None => None
  end.

Definition read (r : nat) : run heap tensor :=
  fun h =>
    match value_at h r with
    | Some t => (Ok t, h)
    | None => (Raise (RuntimeError "the tensor was overwritten through an alias"), h)
    end.

(** A new object in a storage of its own. *)
Definition fresh (t : tensor) : run heap nat :=
  fun h => (Ok (List.length h), h ++ [mk_cell (List.length h) (Some t)]).

(** A new object in the storage of the object at [src]. *)
Definition view (src : nat) (t : tensor) : run heap nat :=
  fun h =>
    match nth_error h src with
    | Some c => (Ok (List.length h), h ++ [mk_cell (storage c) (Some t)])
    | None => (Raise (RuntimeError "no such object"), h)
    end.

(** An in-place update of the object at [r]. *)
Definition write (r : nat) (t : tensor) : run heap unit :=
  fun h =>
    match nth_error h r with
    | Some c => (Ok tt, store_at 0 r (storage c) t h)
    | None => (Raise (RuntimeError "no such object"), h)
    end.

(** ** The tensor operations on references *)

Definition r_as_tensor (v : pyval) : run heap nat :=
  t <~ lift (t_as_tensor v) ;; fresh t.

Definition r_float (x : nat) : run heap nat :=
  v <~ read x ;; view x (t_float v).

Definition r_flatten (x : nat) : run heap nat :=
  v <~ read x ;; view x (t_flatten v).

Definition r_select (x : nat) (i : nat) : run heap nat :=
  v <~ read x ;; t <~ lift (t_select v i) ;; view x t.

Definition r_mul (x y : nat) : run heap nat :=
  a <~ read x ;; b <~ read y ;; t <~ lift (t_mul a b) ;; fresh t.

(** A criterion of [torch.nn] returns a new tensor. *)
Definition r_criterion (criterion : tensor -> tensor -> result tensor)
    (x y : nat) : run heap nat :=
  a <~ read x ;; b <~ read y ;; t <~ lift (criterion a b) ;; fresh t.

Definition r_shape_at (x : nat) (i : Z) : run heap nat :=
  v <~ read x ;; lift (shape_at (t_shape v) i).

(** [acc += x]: a new tensor when [acc] is a plain value, an in-place
    update of [acc] when it is a tensor. *)
Definition r_iadd (acc : pyref) (x : nat) : run heap pyref :=
  match acc with
  | RVal v =>
      b <~ read x ;; t <~ lift (t_radd_scalar v b) ;; r <~ fresh t ;;
      unit_run (RRef r)
  | RRef a =>
      va <~ read a ;; b <~ read x ;; t <~ lift (t_iadd va b) ;;
      _ <~ write a t ;; unit_run (RRef a)
  end.

(** [acc /= d]. *)
Definition r_itruediv (acc : pyref) (d : pyval) : run heap pyref :=
  match acc with
  | RVal v => q <~ lift (py_truediv v d) ;; unit_run (RVal q)
  | RRef a =>
      va <~ read a ;; t <~ lift (t_idiv_scalar va d) ;;
      _ <~ write a t ;; unit_run (RRef a)
  end.

(** ** The regression losses on references *)

Definition L1_run (output label : nat) (reduction scaling_factor : pyval)
  : run heap nat :=
  scaling_factor <~ r_as_tensor scaling_factor ;;
  label <~ r_float label ;;
  label <~ r_mul label scaling_factor ;;
  iflat <~ r_flatten output ;;
  tflat <~ r_flatten label ;;
  r_criterion (L1Loss reduction) iflat tflat.

Definition L1_loss_run (inp target : nat) (params : pyval) : run heap pyref :=
  let acc_mse_loss := RVal (PInt 0) in
  batch <~ r_shape_at inp 0 ;;
  acc_mse_loss <~
    (if batch =? 1 then
       if negb (py_is_none params) then
         reduction <~ lift (py_path params ["loss_function"; "l1"; "reduction"]) ;;
         scaling_factor <~ lift (py_getitem params (KStr "scaling_factor")) ;;
         l <~ L1_run inp target reduction scaling_factor ;;
         r_iadd acc_mse_loss l
       else
         l <~ L1_run inp target default_reduction default_scaling_factor ;;
         r_iadd acc_mse_loss l
     else
       if negb (py_is_none params) then
         num_classes <~ lift (py_path params ["model"; "num_classes"]) ;;
         classes <~ lift (py_range num_classes) ;;
         for_loop_run classes
           (fun i acc_mse_loss =>
              x <~ r_select inp i ;;
              y <~ r_select target i ;;
              reduction <~ lift (py_path params ["loss_function"; "mse"; "reduction"]) ;;
              scaling_factor <~ lift (py_getitem params (KStr "scaling_factor")) ;;
              l <~ L1_run x y reduction scaling_factor ;;
              r_iadd acc_mse_loss l)
           acc_mse_loss
       else
         channels <~ r_shape_at inp 1 ;;
         for_loop_run (seq 0 channels)
           (fun i acc_mse_loss =>
              x <~ r_select inp i ;;
              y <~ r_select target i ;;
              l <~ L1_run x y default_reduction default_scaling_factor ;;
              r_iadd acc_mse_loss l)
           acc_mse_loss) ;;
  if negb (py_is_none params) then
    num_classes <~ lift (py_path params ["model"; "num_classes"]) ;;
    r_itruediv acc_mse_loss num_classes
  else
    channels <~ r_shape_at inp 1 ;;
    r_itruediv acc_mse_loss (PInt (Z.of_nat channels)).

Definition MSE_run (output label : nat) (reduction scaling_factor : pyval)
  : run heap nat :=
  scaling_factor <~ r_as_tensor scaling_factor ;;
  label <~ r_float label ;;
  label <~ r_mul label scaling_factor ;;
  iflat <~ r_flatten output ;;
  tflat <~ r_flatten label ;;
  r_criterion (MSELoss reduction) iflat tflat.

Definition MSE_loss_run (inp target : nat) (params : pyval) : run heap pyref :=
  let acc_mse_loss := RVal (PInt 0) in
  reduction <~ lift (MSE_loss_reduction params) ;;
  batch <~ r_shape_at inp 0 ;;
  acc_mse_loss <~
    (if batch =? 1 then
       if negb (py_is_none params) then
         scaling_factor <~ lift (py_getitem params (KStr "scaling_factor")) ;;
         l <~ MSE_run inp target reduction scaling_factor ;;
         r_iadd acc_mse_loss l
       else
         l <~ MSE_run inp target default_reduction default_scaling_factor ;;
         r_iadd acc_mse_loss l
     else
       if negb (py_is_none params) then
         num_classes <~ lift (py_path params ["model"; "num_classes"]) ;;
         classes <~ lift (py_range num_classes) ;;
         for_loop_run classes
           (fun i acc_mse_loss =>
              x <~ r_select inp i ;;
              y <~ r_select target i ;;
              scaling_factor <~ lift (py_getitem params (KStr "scaling_factor")) ;;
              l <~ MSE_run x y reduction scaling_factor ;;
              r_iadd acc_mse_loss l)
           acc_mse_loss
       else
         channels <~ r_shape_at inp 1 ;;
         for_loop_run (seq 0 channels)
           (fun i acc_mse_loss =>
              x <~ r_select inp i ;;
              y <~ r_select target i ;;
              l <~ MSE_run x y default_reduction default_scaling_factor ;;
              r_iadd acc_mse_loss l)
           acc_mse_loss) ;;
  if negb (py_is_none params) then
    num_classes <~ lift (py_path params ["model"; "num_classes"]) ;;
    r_itruediv acc_mse_loss num_classes
  else
    channels <~ r_shape_at inp 1 ;;
    r_itruediv acc_mse_loss (PInt (Z.of_nat channels)).

(** What a call hands back to its caller: the exception, the plain value,
    or the tensor the returned object holds in the final heap. *)
Definition outcome (x : result pyref * heap) : result pyobj :=
  match x with
  | (Raise e, _) => Raise e
  | (Ok (RVal v), _) => Ok (OVal v)
  | (Ok (RRef r), h) =>
      match value_at h r with
      | Some t => Ok (OTensor t)
      | None => Raise (RuntimeError "the tensor was overwritten through an alias")
      end
  end.

(** Storage identifiers in use are below the next address. *)
Definition bounded (h : heap) : Prop :=
  forall k c, nth_error h k = Some c -> storage c < List.length h.

(** Every object of [h] is still there in [h'], as it was. *)
Definition preserved (h h' : heap) : Prop := exists new, h' = h ++ new.

(** Storage identifiers in use are below the next address, as a test. *)
Definition well_formed (h : heap) : bool :=
  forallb (fun c => storage c <? List.length h) h.

(** ** The invariants of a call *)

(** The object at [r] lives in storage [s] and holds [t]. *)
Definition holds (h : heap) (r s : nat) (t : tensor) : Prop :=
  nth_error h r = Some (mk_cell s (Some t)).

(** No other object shares the storage [a] of the object at [a]. *)
Definition lonely (h : heap) (a : nat) : Prop :=
  forall k c, nth_error h k = Some c -> k <> a -> storage c <> a.

(** The accumulator [acc] of a run stands for the value [pacc]: a plain
    value for itself, an address for the tensor of a lonely object that
    was allocated after the heap [h0] of the call. *)
Definition acc_at (h0 h : heap) (acc : pyref) (pacc : pyobj) : Prop :=
  match acc, pacc with
  | RVal v, OVal v' => v = v'
  | RRef a, OTensor t => List.length h0 <= a /\ holds h a a t /\ lonely h a
  | _, _ => False
  end.

Definition inv (h0 h : heap) (acc : pyref) (pacc : pyobj) : Prop :=
  preserved h0 h /\ bounded h /\ acc_at h0 h acc pacc.

(** The run [x] of a statement that updates the accumulator refines the
    outcome [r] of the statement on values. *)
Definition step_ok (h0 : heap) (x : result pyref * heap) (r : result pyobj)
  : Prop :=
  match r with
  | Ok pacc => exists acc, fst x = Ok acc /\ inv h0 (snd x) acc pacc
  | Raise e => fst x = Raise e /\ preserved h0 (snd x) /\ bounded (snd x)
  end.

(** The run [m] from [h] only allocates, in storages that are new or
    allowed by [ok], and returns an object holding the tensor of [r]. *)
Definition allocates (ok : nat -> Prop) (h : heap) (m : run heap nat)
    (r : result tensor) : Prop :=
  exists new,
    snd (m h) = h ++ new
    /\ bounded (h ++ new)
    /\ (forall c, In c new -> ok (storage c) \/ List.length h <= storage c)
    /\ match r with
       | Ok t =>
           exists k s, fst (m h) = Ok k /\ holds (h ++ new) k s t
                       /\ (ok s \/ List.length h <= s)
       | Raise e => fst (m h) = Raise e
       end.

(** The storages a run may allocate in while [acc] is the accumulator:
    any but the accumulator's. *)
Definition avoid (acc : pyref) (s : nat) : Prop :=
  match acc with
  | RVal _ => True
  | RRef a => s <> a
  end.
End ReferenceSemantics.

(** * Sample inputs

    Concrete tensors and configurations on which the losses are run. *)
Module Samples.

Definition backend : Torch := F32.backend.

(** A 0-dimensional binary32 tensor holding [a / b]. *)
Definition ratio (a b : Z) : F32.tensor :=
  F32.mk_tensor F32.Float32 []
    [F32.SFloat (F32.f32_div (F32.f32_of_Z a) (F32.f32_of_Z b))].

(** [{"model": {"num_classes": 3}, "loss_function": lf, "scaling_factor": 1}] *)
Definition config (lf : list (pykey * pyval)) : pyval :=
  PDict [(KStr "model", PDict [(KStr "num_classes", PInt 3)]);
         (KStr "loss_function", PDict lf);
         (KStr "scaling_factor", PInt 1)].

Definition mean_entry : pyval := PDict [(KStr "reduction", PStr "mean")].

(** A configuration with an ["mse"] and an ["l1"] entry, and one with an
    ["l1"] entry only. *)
Definition params : pyval :=
  config [(KStr "mse", mean_entry); (KStr "l1", mean_entry)].

(** Two samples of three classes and two positions: class [i] holds
    [i + 1] everywhere. *)
Definition inp : F32.tensor :=
  F32.of_ints [2; 3; 2] [1; 1; 2; 2; 3; 3; 1; 1; 2; 2; 3; 3]%Z.
Definition target : F32.tensor := F32.of_ints [2; 3; 2] (repeat 0%Z 12).

(** The first sample alone. *)
Definition inp1 : F32.tensor := F32.of_ints [1; 3; 2] [1; 1; 2; 2; 3; 3]%Z.
Definition target1 : F32.tensor := F32.of_ints [1; 3; 2] (repeat 0%Z 6).

(** The scenario of shape [[2, 3, 4, 4]]: all ones against all zeros. *)
Definition ones : F32.tensor := F32.of_ints [2; 3; 4; 4] (repeat 1%Z 96).
Definition zeros : F32.tensor := F32.of_ints [2; 3; 4; 4] (repeat 0%Z 96).

(** [MSE] and [L1] with their default arguments. *)
Definition mse_mean (x y : F32.tensor) : result F32.tensor :=
  MSE (H := backend) F32.MSELoss x y (PStr "mean") (PInt 1).
Definition l1_mean (x y : F32.tensor) : result F32.tensor :=
  L1 (H := backend) F32.L1Loss x y (PStr "mean") (PInt 1).

(** Two classes: an output of two samples and two positions whose class 0
    is all ones and whose class 1 is all zeros, the class identifiers of
    the target, and the configuration with the given weights. *)
Definition out2 : F32.tensor := F32.of_ints [2; 2; 2] [1; 1; 0; 0; 1; 1; 0; 0]%Z.
Definition labels2 : F32.tensor := F32.of_ints [2; 2] [0; 1; 1; 0]%Z.
Definition class_list2 : pyval := PList [PInt 0; PInt 1].
Definition hot2 : F32.tensor :=
  F32.mk_tensor F32.Bool [2; 2; 2] (map F32.SInt [1; 0; 0; 1; 0; 1; 1; 0]%Z).
Definition cce_params (weights : pyval) : pyval :=
  PDict [(KStr "model", PDict [(KStr "class_list", class_list2)]);
         (KStr "weights", weights)].

(** The weights [[0.5, 2.0]]. *)
Definition weights2 : pyval := PList [F32.py_float 1 (-1); F32.py_float 1 1].

(** An output of two samples and three classes with class indices as
    target, and a mapping of two weights [{0: 1.0, 1: 2.0}]. *)
Definition out3 : F32.tensor := F32.of_ints [2; 3] (repeat 0%Z 6).
Definition labels3 : F32.tensor := F32.of_ints [2] [0; 1]%Z.
Definition two_weights : list (pykey * pyval) :=
  [(KInt 0, F32.py_float 1 0); (KInt 1, F32.py_float 1 1)].
Definition cel_params : pyval := PDict [(KStr "weights", PDict two_weights)].

(** The binary32 backend has no logarithm, so it has no entropy criterion
    of its own; where a run never reaches the criterion this one stands in
    its place. *)
Definition no_criterion (weight : option F32.tensor) (x y : F32.tensor)
  : result F32.tensor :=
  Raise (RuntimeError "the backend has no entropy criterion").

(** A target holding the single value 2. *)
Definition two : F32.tensor := F32.of_ints [1] [2%Z].

(** Two heaps in which [inp] and [target] live: in the first at the
    addresses 0 and 1; in the second at 2 and 0, with a view of the target
    in between. *)
Definition heap1 : heap (H := backend) :=
  [mk_cell 0 (Some inp); mk_cell 1 (Some target)].
Definition heap2 : heap (H := backend) :=
  [mk_cell 0 (Some target); mk_cell 0 (Some target1); mk_cell 2 (Some inp)].
End Samples.

(** * Further vocabulary and samples *)

(** A binary32 value that is a whole number from 0 to 255 (either zero
    counts as 0). *)
Definition whole_byte (x : F32.float32) : Prop :=
  exists k : Z, (0 <= k < 256)%Z /\ SFeqb (F32.f32_of_Z k) x = true.

(** The [Float32] tensor of shape [s] that holds the values [xs]. *)
Definition float_tensor (s : list nat) (xs : list F32.float32) : F32.tensor :=
  F32.mk_tensor F32.Float32 s (map F32.SFloat xs).

(** Further inputs, for the edges of the loops and of the lookups. *)
Module EdgeSamples.
Import Samples.

(** [config] with another number of classes. *)
Definition config_classes (n : Z) : pyval :=
  PDict [(KStr "model", PDict [(KStr "num_classes", PInt n)]);
         (KStr "loss_function",
          PDict [(KStr "mse", mean_entry); (KStr "l1", mean_entry)]);
         (KStr "scaling_factor", PInt 1)].

(** Four classes and no ["mse"] entry. *)
Definition four_classes_no_mse : pyval :=
  PDict [(KStr "model", PDict [(KStr "num_classes", PInt 4)]);
         (KStr "loss_function", PDict [(KStr "l1", mean_entry)]);
         (KStr "scaling_factor", PInt 1)].

(** A configuration with an ["mse"] entry only, one that asks for the sum,
    and one whose [loss_function] is the name of the loss. *)
Definition params_mse_only : pyval := config [(KStr "mse", mean_entry)].
Definition params_sum : pyval :=
  config [(KStr "mse", PDict [(KStr "reduction", PStr "sum")])].
Definition params_named : pyval :=
  PDict [(KStr "model", PDict [(KStr "num_classes", PInt 3)]);
         (KStr "loss_function", PStr "mse");
         (KStr "scaling_factor", PInt 1)].

(** Two samples without channels. *)
Definition no_channels : F32.tensor := F32.of_ints [2; 0; 2] [].

(** One weight for the two classes of [out2], no classes at all, and a
    list of three weights for [out3]. *)
Definition one_weight : pyval := PList [F32.py_float 1 (-1)].
Definition weight_list : pyval :=
  PDict [(KStr "weights",
          PList [F32.py_float 1 0; F32.py_float 1 1; F32.py_float 1 0])].

(** The two classes of [out2] and no ["weights"] key. *)
Definition unweighted : list (pykey * pyval) :=
  [(KStr "model", PDict [(KStr "class_list", class_list2)])].

(** Binary32 targets: the whole numbers 2 and 255, and one half. *)
Definition bytes : list F32.float32 := [F32.f32_of_Z 2; F32.f32_of_Z 255].
Definition half : F32.float32 := F32.f32_div (F32.f32_of_Z 1) (F32.f32_of_Z 2).

(** A stand-in for the binary criteria, which are never reached or whose
    value does not matter. *)
Definition no_binary_criterion (x y : F32.tensor) : result F32.tensor :=
  Raise (RuntimeError "the backend has no entropy criterion").
End EdgeSamples.

(** * Facts about loops and lookups *)

Arguments py_path : simpl never.

Lemma bind_Ok {A B : Type} (a : A) (k : A -> result B) : bind (Ok a) k = k a.
Proof. reflexivity. Qed.

Lemma bind_Raise {A B : Type} (e : pyerr) (k : A -> result B) :
  bind (Raise e) k = Raise e.
Proof. reflexivity. Qed.

Lemma bind_assoc {A B C : Type} (r : result A) (f : A -> result B)
    (g : B -> result C) :
  bind (bind r f) g = bind r (fun a => bind (f a) g).
Proof. destruct r; reflexivity. Qed.

Lemma bind_inv_Ok {A B : Type} (r : result A) (k : A -> result B) (b : B) :
  bind r k = Ok b -> exists a, r = Ok a /\ k a = Ok b.
Proof.
  destruct r as [a|e]; simpl; intros Hk.
  - exists a. split; [reflexivity | exact Hk].
  - discriminate Hk.
Qed.

(** A loop whose body first computes [f i] and then folds it into the
    loop-carried variable with [g] is the fold of [g] over the values of
    [f], provided every [f i] returns. *)
Lemma for_loop_values {A B S : Type} (f : A -> result B)
    (g : B -> S -> result S) (body : A -> S -> result S) :
  (forall i s, body i s = (l <- f i ;; g l s)) ->
  forall (idx : list A) (ls : list B),
    Forall2 (fun i l => f i = Ok l) idx ls ->
    forall s, for_loop idx body s = for_loop ls g s.
Proof.
  intros Hbody idx ls Hall.
  induction Hall as [|i l idx ls Hi _ IH]; intros s.
  - reflexivity.
  - simpl. rewrite Hbody, Hi. simpl.
    destruct (g l s) as [s'|e]; simpl; [apply IH | reflexivity].
Qed.


Lemma py_path_cons (v : pyval) (k : string) (ks : list string) :
  py_path v (k :: ks) = (x <- py_getitem v (KStr k) ;; py_path x ks).
Proof. reflexivity. Qed.

Lemma py_path_app (v : pyval) (ks ks' : list string) :
  py_path v (ks ++ ks') = (x <- py_path v ks ;; py_path x ks').
Proof.
  revert v. induction ks as [|k ks IH]; intros v.
  - reflexivity.
  - cbn [app]. rewrite !py_path_cons.
    destruct (py_getitem v (KStr k)) as [x|e]; [|reflexivity].
    rewrite !bind_Ok. apply IH.
Qed.

Lemma shape_at_0 (b : nat) (rest : list nat) : shape_at (b :: rest) 0 = Ok b.
Proof.
  unfold shape_at, list_index.
  replace ((0 <=? 0)%Z && (0 <? Z.of_nat (List.length (b :: rest)))%Z)%bool with true.
  - reflexivity.
  - symmetry. apply andb_true_intro. split.
    + reflexivity.
    + apply Z.ltb_lt. simpl List.length. lia.
Qed.

Lemma shape_at_1 (b c : nat) (rest : list nat) :
  shape_at (b :: c :: rest) 1 = Ok c.
Proof.
  unfold shape_at, list_index.
  replace ((0 <=? 1)%Z && (1 <? Z.of_nat (List.length (b :: c :: rest)))%Z)%bool
    with true.
  - reflexivity.
  - symmetry. apply andb_true_intro. split.
    + reflexivity.
    + apply Z.ltb_lt. simpl List.length. lia.
Qed.

(** * The regression losses *)

Section RegressionFacts.
Context `{Torch}.
Variable L1Loss : pyval -> tensor -> tensor -> result tensor.
Variable MSELoss : pyval -> tensor -> tensor -> result tensor.

(** Once an addition has raised, the rest of the fold keeps the error. *)
Lemma fold_iadd_Raise (ls : list tensor) (e : pyerr) :
  fold_left (fun acc l => a <- acc ;; t_iadd a l) ls (Raise e) = Raise e.
Proof. induction ls as [|l ls IH]; [reflexivity | exact IH]. Qed.

(** The loop [acc += l] over [ls], started on a tensor, is the fold of
    the in-place additions. *)
Lemma for_loop_iadd (ls : list tensor) (a : tensor) :
  for_loop ls (fun l acc => py_iadd acc l) (OTensor a)
  = (total <- fold_left (fun acc l => a <- acc ;; t_iadd a l) ls (Ok a) ;;
     Ok (OTensor total)).
Proof.
  revert a. induction ls as [|l ls IH]; intros a; [reflexivity|].
  cbn [for_loop fold_left py_iadd]. rewrite bind_Ok.
  destruct (t_iadd a l) as [a'|e].
  - rewrite !bind_Ok. apply IH.
  - rewrite fold_iadd_Raise. reflexivity.
Qed.

(** The running sum of the source followed by its division, in terms of
    the tensor operations. *)
Lemma py_sum_divided (ls : list tensor) (d : pyval) :
  (s <- py_sum ls ;; py_itruediv s d) = summed_and_divided ls d.
Proof.
  destruct ls as [|l0 rest]; [reflexivity|].
  unfold py_sum, summed_and_divided. cbn [for_loop py_iadd].
  destruct (t_radd_scalar (PInt 0) l0) as [first|e]; [|reflexivity].
  rewrite !bind_Ok, for_loop_iadd.
  destruct (fold_left _ rest (Ok first)) as [total|e]; reflexivity.
Qed.

(** With a configuration, one iteration of the loop of [MSE_loss] adds the
    loss of class [i] to the accumulator. *)
Lemma MSE_loss_body (inp target : tensor) (params reduction sf : pyval) :
  py_getitem params (KStr "scaling_factor") = Ok sf ->
  forall (i : nat) (acc : pyobj),
    (x <- t_select inp i ;;
     y <- t_select target i ;;
     scaling_factor <- py_getitem params (KStr "scaling_factor") ;;
     l <- MSE MSELoss x y reduction scaling_factor ;;
     py_iadd acc l)
    = (l <- per_class (fun x y => MSE MSELoss x y reduction sf) inp target i ;;
       py_iadd acc l).
Proof.
  intros Hsf i acc. unfold per_class.
  destruct (t_select inp i) as [x|e]; simpl; [|reflexivity].
  destruct (t_select target i) as [y|e]; simpl; [|reflexivity].
  rewrite Hsf. reflexivity.
Qed.

(** The same for [L1_loss], whose loop reads the reduction of the ["mse"]
    entry on every iteration. *)
Lemma L1_loss_body (inp target : tensor) (params reduction sf : pyval) :
  py_path params ["loss_function"; "mse"; "reduction"] = Ok reduction ->
  py_getitem params (KStr "scaling_factor") = Ok sf ->
  forall (i : nat) (acc : pyobj),
    (x <- t_select inp i ;;
     y <- t_select target i ;;
     reduction <- py_path params ["loss_function"; "mse"; "reduction"] ;;
     scaling_factor <- py_getitem params (KStr "scaling_factor") ;;
     l <- L1 L1Loss x y reduction scaling_factor ;;
     py_iadd acc l)
    = (l <- per_class (fun x y => L1 L1Loss x y reduction sf) inp target i ;;
       py_iadd acc l).
Proof.
  intros Hred Hsf i acc. unfold per_class.
  destruct (t_select inp i) as [x|e]; simpl; [|reflexivity].
  destruct (t_select target i) as [y|e]; simpl; [|reflexivity].
  rewrite Hred, bind_Ok, Hsf. reflexivity.
Qed.

(** Without a configuration the loops call the primitive with its default
    arguments. *)
Lemma default_body (prim : tensor -> tensor -> pyval -> pyval -> result tensor)
    (inp target : tensor) (i : nat) (acc : pyobj) :
  (x <- t_select inp i ;;
   y <- t_select target i ;;
   l <- prim x y default_reduction default_scaling_factor ;;
   py_iadd acc l)
  = (l <- per_class (fun x y => prim x y default_reduction default_scaling_factor)
          inp target i ;;
     py_iadd acc l).
Proof.
  unfold per_class.
  destruct (t_select inp i) as [x|e]; simpl; [|reflexivity].
  destruct (t_select target i) as [y|e]; reflexivity.
Qed.

Lemma batch_not_one (batch : nat) : 1 < batch -> (batch =? 1) = false.
Proof. intros Hb. apply Nat.eqb_neq. lia. Qed.

(** The multi-sample branch of [MSE_loss] with a configuration. *)
Lemma MSE_loss_multi (inp target : tensor) (params reduction sf : pyval)
    (batch : nat) (rest : list nat) (nc : Z) (losses : list tensor) :
  t_shape inp = batch :: rest ->
  (batch =? 1) = false ->
  py_is_none params = false ->
  py_path params ["model"; "num_classes"] = Ok (PInt nc) ->
  py_getitem params (KStr "scaling_factor") = Ok sf ->
  MSE_loss_reduction params = Ok reduction ->
  values_at (per_class (fun x y => MSE MSELoss x y reduction sf) inp target)
    (Z.to_nat nc) losses ->
  MSE_loss MSELoss inp target params
  = (s <- py_sum losses ;; py_itruediv s (PInt nc)).
Proof.
  intros Hshape Hb Hnone Hnc Hsf Hred Hall.
  unfold MSE_loss. rewrite Hred, Hshape, shape_at_0, !bind_Ok.
  rewrite Hb, Hnone. cbn [negb]. rewrite Hnc, !bind_Ok. cbn [py_range]. rewrite !bind_Ok.
  rewrite (for_loop_values _ (fun l acc => py_iadd acc l) _
             (MSE_loss_body inp target params reduction sf Hsf) _ _ Hall).
  reflexivity.
Qed.

(** The multi-sample branch of [L1_loss] with a configuration. *)
Lemma L1_loss_multi (inp target : tensor) (params reduction sf : pyval)
    (batch : nat) (rest : list nat) (nc : Z) (losses : list tensor) :
  t_shape inp = batch :: rest ->
  (batch =? 1) = false ->
  py_is_none params = false ->
  py_path params ["model"; "num_classes"] = Ok (PInt nc) ->
  py_getitem params (KStr "scaling_factor") = Ok sf ->
  py_path params ["loss_function"; "mse"; "reduction"] = Ok reduction ->
  values_at (per_class (fun x y => L1 L1Loss x y reduction sf) inp target)
    (Z.to_nat nc) losses ->
  L1_loss L1Loss inp target params
  = (s <- py_sum losses ;; py_itruediv s (PInt nc)).
Proof.
  intros Hshape Hb Hnone Hnc Hsf Hred Hall.
  unfold L1_loss. rewrite Hshape, shape_at_0, !bind_Ok.
  rewrite Hb, Hnone. cbn [negb]. rewrite Hnc, !bind_Ok. cbn [py_range]. rewrite !bind_Ok.
  rewrite (for_loop_values _ (fun l acc => py_iadd acc l) _
             (L1_loss_body inp target params reduction sf Hred Hsf) _ _ Hall).
  reflexivity.
Qed.

(** C4.  For an input with more than one sample and a configuration,
    [MSE_loss] and [L1_loss] return the sum, over the class indices
    [0 .. num_classes-1], of the primitive loss of the slices
    [inp[:, i, ...]] and [target[:, i, ...]], divided once by
    [params["model"]["num_classes"]]: the first loss is added to [0],
    the others are added to the accumulator in place, and the accumulator
    is divided in place. *)
Theorem class_sum_divided_once (inp target : tensor) (params sf : pyval)
    (batch : nat) (rest : list nat) (nc : Z) :
  t_shape inp = batch :: rest ->
  1 < batch ->
  py_is_none params = false ->
  py_path params ["model"; "num_classes"] = Ok (PInt nc) ->
  py_getitem params (KStr "scaling_factor") = Ok sf ->
  (forall (reduction : pyval) (losses : list tensor),
      MSE_loss_reduction params = Ok reduction ->
      values_at (per_class (fun x y => MSE MSELoss x y reduction sf) inp target)
        (Z.to_nat nc) losses ->
      MSE_loss MSELoss inp target params
      = summed_and_divided losses (PInt nc))
  /\
  (forall (reduction : pyval) (losses : list tensor),
      py_path params ["loss_function"; "mse"; "reduction"] = Ok reduction ->
      values_at (per_class (fun x y => L1 L1Loss x y reduction sf) inp target)
        (Z.to_nat nc) losses ->
      L1_loss L1Loss inp target params
      = summed_and_divided losses (PInt nc)).
Proof.
  intros Hshape Hb Hnone Hnc Hsf.
  split; intros reduction losses Hred Hall; rewrite <- py_sum_divided.
  - eapply MSE_loss_multi; eauto using batch_not_one.
  - eapply L1_loss_multi; eauto using batch_not_one.
Qed.

(** A reduction configured under [loss_function.mse] is the one
    [MSE_loss] uses. *)
Lemma MSE_loss_reduction_configured (params reduction : pyval) :
  py_path params ["loss_function"; "mse"; "reduction"] = Ok reduction ->
  MSE_loss_reduction params = Ok reduction.
Proof.
  intros Hpath. unfold MSE_loss_reduction. cbv [py_path] in *.
  destruct params as [|z|f|s|l|d]; try discriminate Hpath.
  cbn [py_is_none negb].
  destruct (py_getitem (PDict d) (KStr "loss_function")) as [lf|e];
    [|discriminate Hpath].
  cbn [bind] in *.
  destruct lf as [|z|f|s|l|m]; try discriminate Hpath.
  cbn [py_contains py_getitem] in *.
  destruct (dict_find m (KStr "mse")) as [mse|]; [|discriminate Hpath].
  cbn [bind] in *.
  destruct mse as [|z|f|s|l'|m']; try discriminate Hpath.
  cbn [py_is_dict]. exact Hpath.
Qed.

(** Adding one loss to the initial [0] is the running sum of that loss. *)
Lemma py_sum_single (l : tensor) : py_sum [l] = py_iadd (OVal (PInt 0)) l.
Proof.
  unfold py_sum. cbn [for_loop].
  destruct (py_iadd (OVal (PInt 0)) l); reflexivity.
Qed.

(** The single-sample branch of [MSE_loss] with a configuration. *)
Lemma MSE_loss_single (inp target : tensor) (params reduction sf nc : pyval)
    (rest : list nat) (l : tensor) :
  t_shape inp = 1 :: rest ->
  py_is_none params = false ->
  py_getitem params (KStr "scaling_factor") = Ok sf ->
  py_path params ["model"; "num_classes"] = Ok nc ->
  MSE_loss_reduction params = Ok reduction ->
  MSE MSELoss inp target reduction sf = Ok l ->
  MSE_loss MSELoss inp target params
  = (s <- py_sum [l] ;; py_itruediv s nc).
Proof.
  intros Hshape Hnone Hsf Hnc Hred Hl.
  unfold MSE_loss. rewrite Hred, Hshape, shape_at_0, !bind_Ok.
  cbn [Nat.eqb]. rewrite Hnone. cbn [negb].
  rewrite Hsf, bind_Ok, Hl, bind_Ok, Hnc, py_sum_single.
  destruct (py_iadd (OVal (PInt 0)) l); reflexivity.
Qed.

(** The single-sample branch of [L1_loss] with a configuration. *)
Lemma L1_loss_single (inp target : tensor) (params reduction sf nc : pyval)
    (rest : list nat) (l : tensor) :
  t_shape inp = 1 :: rest ->
  py_is_none params = false ->
  py_getitem params (KStr "scaling_factor") = Ok sf ->
  py_path params ["model"; "num_classes"] = Ok nc ->
  py_path params ["loss_function"; "l1"; "reduction"] = Ok reduction ->
  L1 L1Loss inp target reduction sf = Ok l ->
  L1_loss L1Loss inp target params
  = (s <- py_sum [l] ;; py_itruediv s nc).
Proof.
  intros Hshape Hnone Hsf Hnc Hred Hl.
  unfold L1_loss. rewrite Hshape, shape_at_0, !bind_Ok.
  cbn [Nat.eqb]. rewrite Hnone. cbn [negb].
  rewrite Hred, bind_Ok, Hsf, bind_Ok, Hl, bind_Ok, Hnc, py_sum_single.
  destruct (py_iadd (OVal (PInt 0)) l); reflexivity.
Qed.

(** C6.  For an input with a single sample, whatever its number of class
    channels, [MSE_loss] and [L1_loss] apply the primitive loss once, to
    the whole tensors, and divide that one value by the number of
    classes. *)
Theorem single_sample_whole_tensor (inp target : tensor)
    (params sf nc : pyval) (rest : list nat) :
  t_shape inp = 1 :: rest ->
  py_is_none params = false ->
  py_getitem params (KStr "scaling_factor") = Ok sf ->
  py_path params ["model"; "num_classes"] = Ok nc ->
  (forall (reduction : pyval) (l : tensor),
      MSE_loss_reduction params = Ok reduction ->
      MSE MSELoss inp target reduction sf = Ok l ->
      MSE_loss MSELoss inp target params
      = (first <- t_radd_scalar (PInt 0) l ;;
         mean <- t_idiv_scalar first nc ;;
         Ok (OTensor mean)))
  /\
  (forall (reduction : pyval) (l : tensor),
      py_path params ["loss_function"; "l1"; "reduction"] = Ok reduction ->
      L1 L1Loss inp target reduction sf = Ok l ->
      L1_loss L1Loss inp target params
      = (first <- t_radd_scalar (PInt 0) l ;;
         mean <- t_idiv_scalar first nc ;;
         Ok (OTensor mean))).
Proof.
  intros Hshape Hnone Hsf Hnc.
  split; intros reduction l Hred Hl;
    change (first <- t_radd_scalar (PInt 0) l ;;
            mean <- t_idiv_scalar first nc ;;
            Ok (OTensor mean))
      with (summed_and_divided [l] nc);
    rewrite <- py_sum_divided.
  - eapply MSE_loss_single; eauto.
  - eapply L1_loss_single; eauto.
Qed.

(** The two branches of a loss called without a configuration, for any
    primitive [prim] that is called with its default arguments. *)
Lemma MSE_loss_no_config_multi (inp target : tensor) (batch channels : nat)
    (rest : list nat) (losses : list tensor) :
  t_shape inp = batch :: channels :: rest ->
  (batch =? 1) = false ->
  values_at (per_class (fun x y => MSE MSELoss x y (PStr "mean") (PInt 1))
               inp target) channels losses ->
  MSE_loss MSELoss inp target PNone
  = (s <- py_sum losses ;; py_itruediv s (PInt (Z.of_nat channels))).
Proof.
  intros Hshape Hb Hall.
  unfold MSE_loss. cbn [MSE_loss_reduction py_is_none negb].
  rewrite Hshape, shape_at_0, shape_at_1, !bind_Ok. rewrite Hb.
  rewrite (for_loop_values _ (fun l acc => py_iadd acc l) _
             (default_body (MSE MSELoss) inp target) _ _ Hall).
  reflexivity.
Qed.

Lemma L1_loss_no_config_multi (inp target : tensor) (batch channels : nat)
    (rest : list nat) (losses : list tensor) :
  t_shape inp = batch :: channels :: rest ->
  (batch =? 1) = false ->
  values_at (per_class (fun x y => L1 L1Loss x y (PStr "mean") (PInt 1))
               inp target) channels losses ->
  L1_loss L1Loss inp target PNone
  = (s <- py_sum losses ;; py_itruediv s (PInt (Z.of_nat channels))).
Proof.
  intros Hshape Hb Hall.
  unfold L1_loss. cbn [py_is_none negb].
  rewrite Hshape, shape_at_0, shape_at_1, !bind_Ok. rewrite Hb.
  rewrite (for_loop_values _ (fun l acc => py_iadd acc l) _
             (default_body (L1 L1Loss) inp target) _ _ Hall).
  reflexivity.
Qed.

Lemma MSE_loss_no_config_single (inp target : tensor) (channels : nat)
    (rest : list nat) (l : tensor) :
  t_shape inp = 1 :: channels :: rest ->
  MSE MSELoss inp target (PStr "mean") (PInt 1) = Ok l ->
  MSE_loss MSELoss inp target PNone
  = (s <- py_sum [l] ;; py_itruediv s (PInt (Z.of_nat channels))).
Proof.
  intros Hshape Hl.
  unfold MSE_loss. cbn [MSE_loss_reduction py_is_none negb].
  rewrite Hshape, shape_at_0, shape_at_1, !bind_Ok. cbn [Nat.eqb].
  unfold default_reduction, default_scaling_factor.
  rewrite Hl, bind_Ok, py_sum_single.
  destruct (py_iadd (OVal (PInt 0)) l); reflexivity.
Qed.

Lemma L1_loss_no_config_single (inp target : tensor) (channels : nat)
    (rest : list nat) (l : tensor) :
  t_shape inp = 1 :: channels :: rest ->
  L1 L1Loss inp target (PStr "mean") (PInt 1) = Ok l ->
  L1_loss L1Loss inp target PNone
  = (s <- py_sum [l] ;; py_itruediv s (PInt (Z.of_nat channels))).
Proof.
  intros Hshape Hl.
  unfold L1_loss. cbn [py_is_none negb].
  rewrite Hshape, shape_at_0, shape_at_1, !bind_Ok. cbn [Nat.eqb].
  unfold default_reduction, default_scaling_factor.
  rewrite Hl, bind_Ok, py_sum_single.
  destruct (py_iadd (OVal (PInt 0)) l); reflexivity.
Qed.

(** C8.  When [params] is [None], [MSE_loss] and [L1_loss] call the
    primitive with reduction ["mean"] and scaling factor [1]; for more than
    one sample they do so once per class channel [0 .. inp.shape[1]-1],
    for one sample once; and they divide the accumulated loss by
    [inp.shape[1]]. *)
Theorem no_config_defaults (inp target : tensor) (batch channels : nat)
    (rest : list nat) :
  t_shape inp = batch :: channels :: rest ->
  (1 < batch ->
   (forall losses : list tensor,
       values_at (per_class (fun x y => MSE MSELoss x y (PStr "mean") (PInt 1))
                    inp target) channels losses ->
       MSE_loss MSELoss inp target PNone
       = summed_and_divided losses (PInt (Z.of_nat channels)))
   /\
   (forall losses : list tensor,
       values_at (per_class (fun x y => L1 L1Loss x y (PStr "mean") (PInt 1))
                    inp target) channels losses ->
       L1_loss L1Loss inp target PNone
       = summed_and_divided losses (PInt (Z.of_nat channels))))
  /\
  (batch = 1 ->
   (forall l : tensor,
       MSE MSELoss inp target (PStr "mean") (PInt 1) = Ok l ->
       MSE_loss MSELoss inp target PNone
       = summed_and_divided [l] (PInt (Z.of_nat channels)))
   /\
   (forall l : tensor,
       L1 L1Loss inp target (PStr "mean") (PInt 1) = Ok l ->
       L1_loss L1Loss inp target PNone
       = summed_and_divided [l] (PInt (Z.of_nat channels)))).
Proof.
  intros Hshape. split.
  - intros Hb. apply batch_not_one in Hb.
    split; intros losses Hall; rewrite <- py_sum_divided.
    + eapply MSE_loss_no_config_multi; eauto.
    + eapply L1_loss_no_config_multi; eauto.
  - intros ->. split; intros l Hl; rewrite <- py_sum_divided.
    + eapply MSE_loss_no_config_single; eauto.
    + eapply L1_loss_no_config_single; eauto.
Qed.


(** C5 (as the code has it).  For [inp] and [target] of shape
    [[2, 3, 4, 4]], [num_classes = 3], reduction ["mean"] and scaling
    factor [1], [MSE_loss] returns the mean of the three per-class MSE
    values: their sum divided by 3, once. *)
Theorem MSE_loss_mean_of_three (inp target : tensor) (params : pyval)
    (m0 m1 m2 : tensor) :
  t_shape inp = [2; 3; 4; 4] ->
  t_shape target = [2; 3; 4; 4] ->
  py_path params ["model"; "num_classes"] = Ok (PInt 3) ->
  py_path params ["loss_function"; "mse"; "reduction"] = Ok (PStr "mean") ->
  py_getitem params (KStr "scaling_factor") = Ok (PInt 1) ->
  per_class (fun x y => MSE MSELoss x y (PStr "mean") (PInt 1)) inp target 0
  = Ok m0 ->
  per_class (fun x y => MSE MSELoss x y (PStr "mean") (PInt 1)) inp target 1
  = Ok m1 ->
  per_class (fun x y => MSE MSELoss x y (PStr "mean") (PInt 1)) inp target 2
  = Ok m2 ->
  MSE_loss MSELoss inp target params = py_mean [m0; m1; m2].
Proof.
  intros Hshape _ Hnc Hred Hsf H0 H1 H2.
  assert (Hnone : py_is_none params = false).
  { destruct params; try reflexivity. discriminate Hsf. }
  unfold py_mean. cbn [List.length Z.of_nat Pos.of_succ_nat Pos.succ].
  eapply MSE_loss_multi; eauto using MSE_loss_reduction_configured.
  repeat constructor; assumption.
Qed.
End RegressionFacts.

(** * The cross-entropy losses *)

Section CrossEntropyFacts.
Context `{Torch}.
Variable CrossEntropyLoss : option tensor -> tensor -> tensor -> result tensor.
Variable BCEWithLogitsLoss : tensor -> tensor -> result tensor.
Variable BCELoss : tensor -> tensor -> result tensor.
Variable one_hot : tensor -> pyval -> result tensor.

(** A key that [v[k]] finds is found by [v.get(k)]. *)
Lemma py_get_of_getitem (v x : pyval) (k : string) :
  py_getitem v (KStr k) = Ok x -> py_get v (KStr k) = Ok x.
Proof.
  destruct v as [|z|f|s|l|d]; try discriminate.
  cbn [py_getitem py_get].
  destruct (dict_find d (KStr k)); [trivial | discriminate].
Qed.

(** C7.  When [params] holds a weights mapping whose length differs from
    [out.shape[-1]], [CEL] raises a [ValueError] whose message gives both
    counts, whatever the criterion would have returned; when the lengths
    agree that error is not raised and the call is the criterion's, with
    the weights as a float tensor. *)
Theorem CEL_weight_count (out target : tensor) (params : pyval)
    (ws : list (pykey * pyval)) (c : nat) :
  py_getitem params (KStr "weights") = Ok (PDict ws) ->
  shape_at (t_shape out) (-1) = Ok c ->
  (List.length ws <> c ->
   CEL CrossEntropyLoss out target params
   = Raise (ValueError ("Number of classes " ++ str_of_nat (List.length ws)
                        ++ " does not match output shape " ++ str_of_nat c)))
  /\
  (List.length ws = c ->
   CEL CrossEntropyLoss out target params
   = (weights <- t_FloatTensor (map snd ws) ;;
      CrossEntropyLoss (Some (t_float weights)) out (CEL_target target))).
Proof.
  intros Hw Hc. unfold CEL.
  rewrite (py_get_of_getitem _ _ _ Hw), bind_Ok.
  cbn [py_is_none]. rewrite Hw, bind_Ok. cbn [py_len].
  rewrite bind_Ok, Hc, bind_Ok.
  split; intros Hlen.
  - replace (c =? List.length ws) with false
      by (symmetry; apply Nat.eqb_neq; congruence).
    reflexivity.
  - replace (c =? List.length ws) with true
      by (symmetry; apply Nat.eqb_eq; congruence).
    cbn [negb]. unfold py_values, CEL_target. rewrite !bind_Ok.
    destruct (t_FloatTensor (map snd ws)); reflexivity.
Qed.

(** One iteration of the loop of [CCE_Generic] when the weights are
    [None]: the loss of class [i] is added as it is. *)
Lemma CCE_body_unweighted (out target : tensor) (params : pyval)
    (CCE_Type : tensor -> tensor -> result tensor) :
  py_getitem params (KStr "weights") = Ok PNone ->
  forall (i : nat) (acc : pyobj),
    (x <- t_select out i ;;
     y <- t_select target i ;;
     curr_ce_loss <- CCE_Type x y ;;
     w <- py_getitem params (KStr "weights") ;;
     curr_ce_loss <-
       (if negb (py_is_none w) then
          ws <- py_getitem params (KStr "weights") ;;
          wi <- py_getitem ws (KInt (Z.of_nat i)) ;;
          t_mul_scalar curr_ce_loss wi
        else Ok curr_ce_loss) ;;
     py_iadd acc curr_ce_loss)
    = (l <- per_class CCE_Type out target i ;; py_iadd acc l).
Proof.
  intros Hw i acc. unfold per_class.
  destruct (t_select out i) as [x|e]; [|reflexivity]. rewrite !bind_Ok.
  destruct (t_select target i) as [y|e]; [|reflexivity]. rewrite !bind_Ok.
  destruct (CCE_Type x y) as [l|e]; [|reflexivity]. rewrite !bind_Ok.
  rewrite Hw, bind_Ok. reflexivity.
Qed.

(** The same iteration when weights are given: the loss of class [i] is
    multiplied by [weights[i]] and added. *)
Lemma CCE_body_weighted (out target : tensor) (params weights : pyval)
    (CCE_Type : tensor -> tensor -> result tensor) :
  py_getitem params (KStr "weights") = Ok weights ->
  py_is_none weights = false ->
  forall (i : nat) (acc : pyobj),
    (x <- t_select out i ;;
     y <- t_select target i ;;
     curr_ce_loss <- CCE_Type x y ;;
     w <- py_getitem params (KStr "weights") ;;
     curr_ce_loss <-
       (if negb (py_is_none w) then
          ws <- py_getitem params (KStr "weights") ;;
          wi <- py_getitem ws (KInt (Z.of_nat i)) ;;
          t_mul_scalar curr_ce_loss wi
        else Ok curr_ce_loss) ;;
     py_iadd acc curr_ce_loss)
    = (p <- weighted_class CCE_Type weights out target i ;; py_iadd acc p).
Proof.
  intros Hw Hnone i acc. unfold weighted_class, per_class.
  destruct (t_select out i) as [x|e]; [|reflexivity]. rewrite !bind_Ok.
  destruct (t_select target i) as [y|e]; [|reflexivity]. rewrite !bind_Ok.
  destruct (CCE_Type x y) as [l|e]; [|reflexivity]. rewrite !bind_Ok.
  rewrite Hw, !bind_Ok, Hnone. cbn [negb].
  destruct (py_getitem weights (KInt (Z.of_nat i))) as [wi|e]; [|reflexivity].
  rewrite !bind_Ok.
  destruct (t_mul_scalar l wi); reflexivity.
Qed.

(** C1.  In a call of [CCE_Generic] with [params["weights"]] equal to
    [None], the statement after the loop reads [total_loss], which has
    never been assigned: the call returns no value, and once the loop over
    the classes has finished it raises the unbound-variable error. *)
Theorem CCE_Generic_unbound_total_loss (out target : tensor) (params : pyval)
    (CCE_Type : tensor -> tensor -> result tensor) :
  py_getitem params (KStr "weights") = Ok PNone ->
  (forall v : pyobj, CCE_Generic one_hot out target params CCE_Type <> Ok v)
  /\
  (forall acc : pyobj,
      CCE_Generic_loop one_hot out target params CCE_Type = Ok acc ->
      CCE_Generic one_hot out target params CCE_Type
      = Raise (UnboundLocalError "total_loss")).
Proof.
  intros Hw. unfold CCE_Generic. split.
  - intros v.
    destruct (CCE_Generic_loop one_hot out target params CCE_Type) as [acc|e].
    + rewrite bind_Ok, Hw, bind_Ok. cbn [py_is_none]. discriminate.
    + rewrite bind_Raise. discriminate.
  - intros acc ->. rewrite bind_Ok, Hw, bind_Ok. reflexivity.
Qed.

(** C3.  In a call of [CCE_Generic] with weights, the value returned is
    the running sum over the class indices [i] of
    [CCE_Type(out[:, i, ...], onehot[:, i, ...]) * weights[i]]; it is not
    divided by the number of classes. *)
Theorem CCE_Generic_weighted_sum (out target hot : tensor)
    (params weights class_list : pyval) (n : nat)
    (CCE_Type : tensor -> tensor -> result tensor) (products : list tensor) :
  py_getitem params (KStr "weights") = Ok weights ->
  py_is_none weights = false ->
  py_path params ["model"; "class_list"] = Ok class_list ->
  py_len class_list = Ok n ->
  one_hot target class_list = Ok hot ->
  values_at (weighted_class CCE_Type weights out (t_type_as hot out)) n products ->
  CCE_Generic one_hot out target params CCE_Type = py_sum products.
Proof.
  intros Hw Hnone Hcl Hn Hhot Hall.
  unfold CCE_Generic, CCE_Generic_loop.
  rewrite Hcl, !bind_Ok, Hhot, !bind_Ok, Hn, !bind_Ok.
  rewrite (for_loop_values _ (fun l acc => py_iadd acc l) _
             (CCE_body_weighted out (t_type_as hot out) params weights
                CCE_Type Hw Hnone) _ _ Hall).
  fold (py_sum products).
  destruct (py_sum products) as [acc|e]; [|reflexivity].
  rewrite bind_Ok, Hw, bind_Ok, Hnone. reflexivity.
Qed.

(** The guard of [CE] and [CE_Logits] lets a target through exactly when
    every item equals its own [byte()] cast. *)
Lemma CE_guard (out target same : tensor) :
  t_eq (t_byte target) target = Ok same ->
  CE BCELoss out target
  = (if t_all same
     then BCELoss (t_float (t_flatten out)) (t_float (t_flatten target))
     else Raise (ValueError "Target tensor must be binary (0 or 1)"))
  /\
  CE_Logits BCEWithLogitsLoss out target
  = (if t_all same
     then BCEWithLogitsLoss (t_flatten out) (t_flatten target)
     else Raise (ValueError "Target tensor must be binary (0 or 1)")).
Proof.
  intros Hsame. unfold CE, CE_Logits. rewrite Hsame, !bind_Ok.
  destruct (t_all same); split; reflexivity.
Qed.
End CrossEntropyFacts.

(** * Facts about the heap *)

Section HeapFacts.
Context `{Torch}.

Lemma holds_value (h : heap) (r s : nat) (t : tensor) :
  holds h r s t -> value_at h r = Some t.
Proof. unfold holds, value_at. intros ->. reflexivity. Qed.

Lemma value_holds (h : heap) (r : nat) (t : tensor) :
  value_at h r = Some t -> exists s, holds h r s t.
Proof.
  unfold holds, value_at. destruct (nth_error h r) as [[s c]|]; [|discriminate].
  cbn. intros ->. exists s. reflexivity.
Qed.

Lemma holds_lt (h : heap) (r s : nat) (t : tensor) :
  holds h r s t -> r < List.length h.
Proof. unfold holds. intros Hr. apply nth_error_Some. congruence. Qed.

Lemma holds_app (h new : heap) (r s : nat) (t : tensor) :
  holds h r s t -> holds (h ++ new) r s t.
Proof.
  intros Hr. unfold holds. rewrite nth_error_app1; [exact Hr|].
  eapply holds_lt; eassumption.
Qed.

Lemma holds_snoc (h : heap) (s : nat) (t : tensor) :
  holds (h ++ [mk_cell s (Some t)]) (List.length h) s t.
Proof.
  unfold holds. rewrite nth_error_app2 by lia.
  rewrite Nat.sub_diag. reflexivity.
Qed.

Lemma read_holds (h : heap) (r s : nat) (t : tensor) :
  holds h r s t -> read r h = (Ok t, h).
Proof. intros Hr. unfold read. rewrite (holds_value _ _ _ _ Hr). reflexivity. Qed.

Lemma view_holds (h : heap) (r s : nat) (v t : tensor) :
  holds h r s v ->
  view r t h = (Ok (List.length h), h ++ [mk_cell s (Some t)]).
Proof. unfold holds, view. intros ->. reflexivity. Qed.

Lemma bind_run_Ok {A B : Type} (m : run heap A) (k : A -> run heap B)
    (h h' : heap) (a : A) :
  m h = (Ok a, h') -> bind_run m k h = k a h'.
Proof. unfold bind_run. intros ->. reflexivity. Qed.

Lemma bind_run_Raise {A B : Type} (m : run heap A) (k : A -> run heap B)
    (h h' : heap) (e : pyerr) :
  m h = (Raise e, h') -> bind_run m k h = (Raise e, h').
Proof. unfold bind_run. intros ->. reflexivity. Qed.

Lemma nth_error_store_at (k r s : nat) (t : tensor) (h : heap) (j : nat) :
  nth_error (store_at k r s t h) j
  = match nth_error h j with
    | None => None
    | Some c =>
        Some (if k + j =? r then mk_cell s (Some t)
              else if storage c =? s then mk_cell (storage c) None
              else c)
    end.
Proof.
  revert k j. induction h as [|c h IH]; intros k j.
  - destruct j; reflexivity.
  - destruct j as [|j]; cbn [store_at nth_error].
    + rewrite Nat.add_0_r. reflexivity.
    + rewrite IH. replace (S k + j) with (k + S j) by lia. reflexivity.
Qed.

Lemma length_store_at (k r s : nat) (t : tensor) (h : heap) :
  List.length (store_at k r s t h) = List.length h.
Proof.
  revert k. induction h as [|c h IH]; intros k; cbn [store_at List.length].
  - reflexivity.
  - rewrite IH. reflexivity.
Qed.

(** An in-place update of a lonely object changes that object only. *)
Lemma store_at_lonely (h : heap) (a : nat) (t : tensor) (j : nat) :
  lonely h a ->
  nth_error (store_at 0 a a t h) j
  = if j =? a then option_map (fun _ => mk_cell a (Some t)) (nth_error h j)
    else nth_error h j.
Proof.
  intros Hl. rewrite nth_error_store_at. cbn [Nat.add].
  destruct (nth_error h j) as [c|] eqn:Hj.
  - destruct (j =? a) eqn:Hja; [reflexivity|].
    apply Nat.eqb_neq in Hja.
    replace (storage c =? a) with false; [reflexivity|].
    symmetry. apply Nat.eqb_neq. eapply Hl; eassumption.
  - destruct (j =? a); reflexivity.
Qed.

Lemma write_lonely (h : heap) (a : nat) (v t : tensor) :
  holds h a a v -> lonely h a ->
  write a t h = (Ok tt, store_at 0 a a t h)
  /\ holds (store_at 0 a a t h) a a t
  /\ (forall j, j <> a -> nth_error (store_at 0 a a t h) j = nth_error h j).
Proof.
  intros Ha Hl. split; [|split].
  - unfold write. rewrite Ha. reflexivity.
  - unfold holds. rewrite store_at_lonely by assumption.
    rewrite Nat.eqb_refl, Ha. reflexivity.
  - intros j Hj. rewrite store_at_lonely by assumption.
    replace (j =? a) with false; [reflexivity|].
    symmetry. apply Nat.eqb_neq. exact Hj.
Qed.

(** An in-place update of a lonely object that was allocated after [h0]
    leaves the objects of [h0] alone. *)
Lemma store_at_preserved (h0 new : heap) (a : nat) (t : tensor) :
  List.length h0 <= a -> lonely (h0 ++ new) a ->
  exists new', store_at 0 a a t (h0 ++ new) = h0 ++ new'
               /\ List.length new' = List.length new.
Proof.
  intros Ha Hl.
  exists (skipn (List.length h0) (store_at 0 a a t (h0 ++ new))).
  assert (Hfirst : firstn (List.length h0) (store_at 0 a a t (h0 ++ new)) = h0).
  { apply nth_error_ext. intros j.
    destruct (Nat.lt_ge_cases j (List.length h0)) as [Hj|Hj].
    - rewrite nth_error_firstn.
      replace (j <? List.length h0) with true by (symmetry; apply Nat.ltb_lt; lia).
      rewrite store_at_lonely by assumption.
      replace (j =? a) with false by (symmetry; apply Nat.eqb_neq; lia).
      apply nth_error_app1. exact Hj.
    - rewrite nth_error_firstn.
      replace (j <? List.length h0) with false by (symmetry; apply Nat.ltb_ge; lia).
      symmetry. apply nth_error_None. exact Hj. }
  split.
  - rewrite <- Hfirst at 2. symmetry. apply firstn_skipn.
  - rewrite length_skipn, length_store_at, length_app. lia.
Qed.
End HeapFacts.

(** * The reference semantics refines the value semantics *)

Section Refinement.
Context `{Torch}.

Lemma preserved_refl (h : heap) : preserved h h.
Proof. exists []. symmetry. apply app_nil_r. Qed.

Lemma preserved_app (h0 h new : heap) : preserved h0 h -> preserved h0 (h ++ new).
Proof. intros [n ->]. exists (n ++ new). symmetry. apply app_assoc. Qed.

Lemma preserved_length (h0 h : heap) :
  preserved h0 h -> List.length h0 <= List.length h.
Proof. intros [n ->]. rewrite length_app. lia. Qed.

Lemma preserved_holds (h0 h : heap) (r s : nat) (t : tensor) :
  preserved h0 h -> holds h0 r s t -> holds h r s t.
Proof. intros [n ->]. apply holds_app. Qed.

Lemma bounded_snoc (h : heap) (c : cell tensor) :
  bounded h -> storage c <= List.length h -> bounded (h ++ [c]).
Proof.
  intros Hb Hc k c' Hk. rewrite length_app. cbn [List.length].
  destruct (Nat.lt_ge_cases k (List.length h)) as [Hlt|Hge].
  - rewrite nth_error_app1 in Hk by exact Hlt. apply Hb in Hk. lia.
  - rewrite nth_error_app2 in Hk by exact Hge.
    destruct (k - List.length h) as [|j]; cbn in Hk.
    + injection Hk as <-. lia.
    + destruct j; discriminate Hk.
Qed.

Lemma bounded_holds (h : heap) (r s : nat) (t : tensor) :
  bounded h -> holds h r s t -> s < List.length h.
Proof. intros Hb Hr. apply Hb in Hr. exact Hr. Qed.

Lemma in_snoc_storage (ok : nat -> Prop) (n : nat) (new : heap) (c : cell tensor) :
  (forall c', In c' new -> ok (storage c') \/ n <= storage c') ->
  ok (storage c) \/ n <= storage c ->
  forall c', In c' (new ++ [c]) -> ok (storage c') \/ n <= storage c'.
Proof.
  intros Hnew Hc c' Hin. apply in_app_or in Hin. destruct Hin as [Hin|[<-|[]]].
  - apply Hnew. exact Hin.
  - exact Hc.
Qed.

(** ** Allocating operations *)

Lemma allocates_raise (ok : nat -> Prop) (h : heap) (m : run heap nat)
    (e : pyerr) :
  bounded h -> m h = (Raise e, h) -> allocates ok h m (Raise e).
Proof.
  intros Hb Hm. exists []. rewrite Hm, app_nil_r. cbn.
  split; [reflexivity|]. split; [exact Hb|]. split; [intros c []|reflexivity].
Qed.

(** Sequencing: an allocation followed by a run that allocates from the
    heap it leaves. *)
Lemma allocates_bind (ok : nat -> Prop) (h : heap) (m : run heap nat)
    (k : nat -> run heap nat) (r : result tensor)
    (kp : tensor -> result tensor) :
  allocates ok h m r ->
  (forall new x s t,
      snd (m h) = h ++ new -> bounded (h ++ new) ->
      holds (h ++ new) x s t -> ok s \/ List.length h <= s ->
      fst (m h) = Ok x -> r = Ok t ->
      allocates (fun s' => ok s' \/ List.length h <= s') (h ++ new) (k x) (kp t)) ->
  allocates ok h (bind_run m k) (bind r kp).
Proof.
  intros (new & Hsnd & Hb & Hst & Hres) Hk.
  destruct r as [t|e].
  - destruct Hres as (x & s & Hfst & Hx & Hs).
    destruct (Hk new x s t Hsnd Hb Hx Hs Hfst eq_refl)
      as (new2 & Hsnd2 & Hb2 & Hst2 & Hres2).
    assert (Hm : m h = (Ok x, h ++ new)).
    { rewrite (surjective_pairing (m h)), Hfst, Hsnd. reflexivity. }
    rewrite bind_Ok. unfold allocates. rewrite (bind_run_Ok _ _ _ _ _ Hm).
    exists (new ++ new2). rewrite app_assoc.
    split; [exact Hsnd2|]. split; [exact Hb2|]. split.
    + intros c Hin. apply in_app_or in Hin. destruct Hin as [Hin|Hin].
      * apply Hst. exact Hin.
      * destruct (Hst2 c Hin) as [[Hok|Hge]|Hge].
        -- left. exact Hok.
        -- right. exact Hge.
        -- right. rewrite length_app in Hge. lia.
    + destruct (kp t) as [t2|e2]; [|exact Hres2].
      destruct Hres2 as (x2 & s2 & Hfst2 & Hx2 & Hs2).
      exists x2, s2. split; [exact Hfst2|]. split; [exact Hx2|].
      rewrite length_app in Hs2. destruct Hs2 as [[Hok|Hge]|Hge];
        [left; exact Hok | right; exact Hge | right; lia].
  - assert (Hm : m h = (Raise e, h ++ new)).
    { rewrite (surjective_pairing (m h)), Hres, Hsnd. reflexivity. }
    rewrite bind_Raise. unfold allocates. rewrite (bind_run_Raise _ _ _ _ _ Hm).
    exists new. cbn. split; [reflexivity|]. split; [exact Hb|].
    split; [exact Hst|reflexivity].
Qed.

Lemma allocates_weaken (ok ok' : nat -> Prop) (h : heap) (m : run heap nat)
    (r : result tensor) :
  (forall s, ok s -> ok' s \/ List.length h <= s) ->
  allocates ok h m r -> allocates ok' h m r.
Proof.
  intros Hok (new & Hsnd & Hb & Hst & Hres). exists new.
  split; [exact Hsnd|]. split; [exact Hb|]. split.
  - intros c Hin.
    destruct (Hst c Hin) as [Hc|Hc]; [apply Hok; exact Hc|right; exact Hc].
  - destruct r as [t|e]; [|exact Hres].
    destruct Hres as (x & s & Hfst & Hx & [Hs|Hs]).
    + exists x, s. split; [exact Hfst|]. split; [exact Hx|]. apply Hok. exact Hs.
    + exists x, s. split; [exact Hfst|]. split; [exact Hx|]. right. exact Hs.
Qed.

(** A view of the object at [x], whose storage is allowed. *)
Lemma allocates_view (ok : nat -> Prop) (h : heap) (x s : nat) (v : tensor)
    (f : tensor -> result tensor) :
  bounded h -> holds h x s v -> ok s ->
  allocates ok h (a <~ read x ;; t <~ lift (f a) ;; view x t) (f v).
Proof.
  intros Hb Hx Hs. unfold allocates.
  rewrite (bind_run_Ok _ _ _ _ _ (read_holds _ _ _ _ Hx)).
  unfold bind_run, lift. destruct (f v) as [t|e].
  - rewrite (view_holds _ _ _ _ t Hx).
    exists [mk_cell s (Some t)]. cbn [fst snd].
    split; [reflexivity|]. split.
    { apply bounded_snoc; [exact Hb|]. cbn. apply Nat.lt_le_incl.
      eapply bounded_holds; eassumption. }
    split.
    { intros c [<-|[]]. left. exact Hs. }
    exists (List.length h), s.
    split; [reflexivity|]. split; [apply holds_snoc|left; exact Hs].
  - exists []. rewrite app_nil_r. cbn [fst snd].
    split; [reflexivity|]. split; [exact Hb|]. split; [intros c []|reflexivity].
Qed.

(** A new object computed from the objects at [x] and [y]. *)
Lemma allocates_fresh2 (ok : nat -> Prop) (h : heap) (x sx y sy : nat)
    (vx vy : tensor) (f : tensor -> tensor -> result tensor) :
  bounded h -> holds h x sx vx -> holds h y sy vy ->
  allocates ok h (a <~ read x ;; b <~ read y ;; t <~ lift (f a b) ;; fresh t)
    (f vx vy).
Proof.
  intros Hb Hx Hy. unfold allocates.
  rewrite (bind_run_Ok _ _ _ _ _ (read_holds _ _ _ _ Hx)).
  rewrite (bind_run_Ok _ _ _ _ _ (read_holds _ _ _ _ Hy)).
  unfold bind_run, lift, fresh. destruct (f vx vy) as [t|e].
  - exists [mk_cell (List.length h) (Some t)]. cbn [fst snd].
    split; [reflexivity|]. split.
    { apply bounded_snoc; [exact Hb|]. cbn. lia. }
    split.
    { intros c [<-|[]]. right. cbn. lia. }
    exists (List.length h), (List.length h).
    split; [reflexivity|]. split; [apply holds_snoc|right; lia].
  - exists []. rewrite app_nil_r. cbn [fst snd].
    split; [reflexivity|]. split; [exact Hb|]. split; [intros c []|reflexivity].
Qed.

(** A new object computed from a Python value. *)
Lemma allocates_fresh0 (ok : nat -> Prop) (h : heap) (r : result tensor) :
  bounded h -> allocates ok h (t <~ lift r ;; fresh t) r.
Proof.
  intros Hb. unfold allocates, bind_run, lift, fresh. destruct r as [t|e].
  - exists [mk_cell (List.length h) (Some t)]. cbn [fst snd].
    split; [reflexivity|]. split.
    { apply bounded_snoc; [exact Hb|]. cbn. lia. }
    split.
    { intros c [<-|[]]. right. cbn. lia. }
    exists (List.length h), (List.length h).
    split; [reflexivity|]. split; [apply holds_snoc|right; lia].
  - exists []. rewrite app_nil_r. cbn [fst snd].
    split; [reflexivity|]. split; [exact Hb|]. split; [intros c []|reflexivity].
Qed.

(** A lookup in the configuration between two allocations. *)
Lemma allocates_lift {A : Type} (ok : nat -> Prop) (h : heap) (r : result A)
    (k : A -> run heap nat) (kp : A -> result tensor) :
  bounded h ->
  (forall a, r = Ok a -> allocates ok h (k a) (kp a)) ->
  allocates ok h (bind_run (lift r) k) (bind r kp).
Proof.
  intros Hb Hk. destruct r as [a|e].
  - apply Hk. reflexivity.
  - exists []. rewrite app_nil_r. cbn [fst snd].
    split; [reflexivity|]. split; [exact Hb|]. split; [intros c []|reflexivity].
Qed.
(** An allocation that returns, followed by a run. *)
Lemma allocates_then (ok : nat -> Prop) (h : heap) (m : run heap nat)
    (k : nat -> run heap nat) (t : tensor) (rp : result tensor) :
  allocates ok h m (Ok t) ->
  (forall new x s,
      bounded (h ++ new) ->
      holds (h ++ new) x s t -> ok s \/ List.length h <= s ->
      allocates (fun s' => ok s' \/ List.length h <= s') (h ++ new) (k x) rp) ->
  allocates ok h (bind_run m k) rp.
Proof.
  intros Hm Hk.
  apply (allocates_bind ok h m k (Ok t) (fun _ => rp) Hm).
  intros new x s t' _ Hb Hx Hs _ [= <-]. eapply Hk; eassumption.
Qed.

(** A view of the object at [x] computed by a total operation. *)
Lemma allocates_view_total (ok : nat -> Prop) (h : heap) (x s : nat)
    (v : tensor) (g : tensor -> tensor) :
  bounded h -> holds h x s v -> ok s ->
  allocates ok h (a <~ read x ;; view x (g a)) (Ok (g v)).
Proof.
  intros Hb Hx Hs. unfold allocates.
  rewrite (bind_run_Ok _ _ _ _ _ (read_holds _ _ _ _ Hx)).
  rewrite (view_holds _ _ _ _ (g v) Hx).
  exists [mk_cell s (Some (g v))]. cbn [fst snd].
  split; [reflexivity|]. split.
  { apply bounded_snoc; [exact Hb|]. cbn. apply Nat.lt_le_incl.
    eapply bounded_holds; eassumption. }
  split.
  { intros c [<-|[]]. left. exact Hs. }
  exists (List.length h), s.
  split; [reflexivity|]. split; [apply holds_snoc|left; exact Hs].
Qed.

(** [MSE] on references allocates the objects of its intermediate results
    and returns an object that holds the value of [MSE] on values.  The
    same holds of [L1], which has the same body. *)
Lemma MSE_run_allocates (criterion : pyval -> tensor -> tensor -> result tensor)
    (ok : nat -> Prop) (h : heap) (output label so sl : nat) (vo vl : tensor)
    (reduction scaling_factor : pyval) :
  bounded h -> holds h output so vo -> holds h label sl vl -> ok so -> ok sl ->
  allocates ok h (MSE_run criterion output label reduction scaling_factor)
    (MSE criterion vo vl reduction scaling_factor).
Proof.
  intros Hb Ho Hl Hso Hsl. unfold MSE_run, MSE.
  apply allocates_bind; [apply allocates_fresh0; exact Hb|].
  intros n1 sf ssf tsf _ Hb1 Hsf _ _ _. cbv zeta.
  apply (allocates_then _ _ _ _ (t_float vl)).
  { apply (allocates_view_total _ _ label sl vl);
      [exact Hb1 | apply holds_app; exact Hl | left; exact Hsl]. }
  intros n2 lf slf Hb2 Hlf Hslf.
  apply allocates_bind.
  { apply (allocates_fresh2 _ _ lf slf sf ssf (t_float vl) tsf t_mul);
      [exact Hb2 | exact Hlf | apply holds_app; exact Hsf]. }
  intros n3 lm slm tlm _ Hb3 Hlm Hslm _ _.
  apply (allocates_then _ _ _ _ (t_flatten vo)).
  { apply (allocates_view_total _ _ output so vo);
      [exact Hb3 | repeat apply holds_app; exact Ho | cbn; tauto]. }
  intros n4 iflat si Hb4 Hi Hsi.
  apply (allocates_then _ _ _ _ (t_flatten tlm)).
  { apply (allocates_view_total _ _ lm slm tlm);
      [exact Hb4 | apply holds_app; exact Hlm | left; exact Hslm]. }
  intros n5 tflat st Hb5 Ht Hst.
  apply (allocates_fresh2 _ _ iflat si tflat st (t_flatten vo) (t_flatten tlm)
           (criterion reduction));
    [exact Hb5 | apply holds_app; exact Hi | exact Ht].
Qed.

Lemma L1_run_allocates (criterion : pyval -> tensor -> tensor -> result tensor)
    (ok : nat -> Prop) (h : heap) (output label so sl : nat) (vo vl : tensor)
    (reduction scaling_factor : pyval) :
  bounded h -> holds h output so vo -> holds h label sl vl -> ok so -> ok sl ->
  allocates ok h (L1_run criterion output label reduction scaling_factor)
    (L1 criterion vo vl reduction scaling_factor).
Proof. exact (MSE_run_allocates criterion ok h output label so sl vo vl reduction scaling_factor). Qed.

(** ** Statements that update the accumulator *)

Lemma inv_start (h0 : heap) (v : pyval) :
  bounded h0 -> inv h0 h0 (RVal v) (OVal v).
Proof.
  intros Hb. split; [apply preserved_refl|]. split; [exact Hb|reflexivity].
Qed.

(** Objects of the initial heap do not live in the accumulator's storage. *)
Lemma avoid_initial (h0 h : heap) (acc : pyref) (pacc : pyobj) (r s : nat)
    (t : tensor) :
  bounded h0 -> inv h0 h acc pacc -> holds h0 r s t -> avoid acc s.
Proof.
  intros Hb0 (_ & _ & Hacc) Hr. destruct acc as [v|a]; [exact I|].
  destruct pacc as [v'|ta]; [destruct Hacc|]. destruct Hacc as (Ha & _ & _).
  cbn. pose proof (bounded_holds _ _ _ _ Hb0 Hr). lia.
Qed.

(** The invariant survives an allocation outside the accumulator's
    storage. *)
Lemma inv_app (h0 h new : heap) (acc : pyref) (pacc : pyobj) :
  inv h0 h acc pacc ->
  bounded (h ++ new) ->
  (forall c, In c new -> avoid acc (storage c) \/ List.length h <= storage c) ->
  inv h0 (h ++ new) acc pacc.
Proof.
  intros (Hp & Hb & Hacc) Hb' Hnew.
  split; [apply preserved_app; exact Hp|]. split; [exact Hb'|].
  destruct acc as [v|a], pacc as [v'|ta]; try exact Hacc.
  destruct Hacc as (Ha & Hha & Hl).
  split; [exact Ha|]. split; [apply holds_app; exact Hha|].
  intros k c Hk Hka.
  destruct (Nat.lt_ge_cases k (List.length h)) as [Hlt|Hge].
  - rewrite nth_error_app1 in Hk by exact Hlt. eapply Hl; eassumption.
  - rewrite nth_error_app2 in Hk by exact Hge.
    apply nth_error_In in Hk. pose proof (holds_lt _ _ _ _ Hha).
    destruct (Hnew c Hk) as [Hc|Hc]; [exact Hc|lia].
Qed.

(** An allocation followed by a statement. *)
Lemma step_alloc (h0 h : heap) (acc : pyref) (pacc : pyobj)
    (m : run heap nat) (r : result tensor)
    (k : nat -> run heap pyref) (kp : tensor -> result pyobj) :
  inv h0 h acc pacc ->
  allocates (avoid acc) h m r ->
  (forall h' x s t,
      preserved h h' -> inv h0 h' acc pacc ->
      holds h' x s t -> avoid acc s ->
      step_ok h0 (k x h') (kp t)) ->
  step_ok h0 (bind_run m k h) (bind r kp).
Proof.
  intros Hinv (new & Hsnd & Hb & Hnew & Hres) Hk.
  pose proof (inv_app _ _ _ _ _ Hinv Hb Hnew) as Hinv'.
  destruct r as [t|e].
  - destruct Hres as (x & s & Hfst & Hx & Hs).
    assert (Hm : m h = (Ok x, h ++ new)).
    { rewrite (surjective_pairing (m h)), Hfst, Hsnd. reflexivity. }
    rewrite bind_Ok, (bind_run_Ok _ _ _ _ _ Hm).
    apply (Hk (h ++ new) x s t); [exists new; reflexivity | exact Hinv' | exact Hx |].
    destruct Hs as [Hs|Hs]; [exact Hs|].
    destruct acc as [v|a]; [exact I|]. cbn.
    destruct Hinv as (_ & _ & Hacc). destruct pacc as [v'|ta]; [destruct Hacc|].
    destruct Hacc as (_ & Hha & _). pose proof (holds_lt _ _ _ _ Hha). lia.
  - assert (Hm : m h = (Raise e, h ++ new)).
    { rewrite (surjective_pairing (m h)), Hres, Hsnd. reflexivity. }
    rewrite bind_Raise, (bind_run_Raise _ _ _ _ _ Hm). cbn.
    destruct Hinv' as (Hp & Hb' & _). repeat split; assumption.
Qed.

(** A lookup in the configuration followed by a statement. *)
Lemma step_lift {A : Type} (h0 h : heap) (acc : pyref) (pacc : pyobj)
    (r : result A) (k : A -> run heap pyref) (kp : A -> result pyobj) :
  inv h0 h acc pacc ->
  (forall a, r = Ok a -> step_ok h0 (k a h) (kp a)) ->
  step_ok h0 (bind_run (lift r) k h) (bind r kp).
Proof.
  intros (Hp & Hb & _) Hk. unfold bind_run, lift. destruct r as [a|e].
  - apply Hk. reflexivity.
  - cbn. repeat split; assumption.
Qed.

(** [x.shape[i]] reads the object and leaves the heap as it is. *)
Lemma step_shape (h0 h : heap) (acc : pyref) (pacc : pyobj)
    (x s : nat) (v : tensor) (i : Z)
    (k : nat -> run heap pyref) (kp : nat -> result pyobj) :
  inv h0 h acc pacc ->
  holds h x s v ->
  (forall n, shape_at (t_shape v) i = Ok n -> step_ok h0 (k n h) (kp n)) ->
  step_ok h0 (bind_run (r_shape_at x i) k h) (bind (shape_at (t_shape v) i) kp).
Proof.
  intros Hinv Hx Hk.
  assert (Hrun : r_shape_at x i h = (shape_at (t_shape v) i, h)).
  { unfold r_shape_at. rewrite (bind_run_Ok _ _ _ _ _ (read_holds _ _ _ _ Hx)).
    reflexivity. }
  destruct (shape_at (t_shape v) i) as [n|e] eqn:Hn.
  - rewrite (bind_run_Ok _ _ _ _ _ Hrun), bind_Ok. apply Hk. reflexivity.
  - rewrite (bind_run_Raise _ _ _ _ _ Hrun), bind_Raise. cbn.
    destruct Hinv as (Hp & Hb & _). repeat split; assumption.
Qed.

(** Two statements in sequence. *)
Lemma step_bind (h0 h : heap) (m : run heap pyref) (r : result pyobj)
    (k : pyref -> run heap pyref) (kp : pyobj -> result pyobj) :
  step_ok h0 (m h) r ->
  (forall acc pacc h', inv h0 h' acc pacc -> step_ok h0 (k acc h') (kp pacc)) ->
  step_ok h0 (bind_run m k h) (bind r kp).
Proof.
  intros Hm Hk. destruct r as [pacc|e]; cbn in Hm.
  - destruct Hm as (acc & Hfst & Hinv).
    assert (Hrun : m h = (Ok acc, snd (m h))).
    { rewrite (surjective_pairing (m h)) at 1. rewrite Hfst. reflexivity. }
    rewrite bind_Ok, (bind_run_Ok _ _ _ _ _ Hrun). apply Hk. exact Hinv.
  - destruct Hm as (Hfst & Hp & Hb).
    assert (Hrun : m h = (Raise e, snd (m h))).
    { rewrite (surjective_pairing (m h)) at 1. rewrite Hfst. reflexivity. }
    rewrite bind_Raise, (bind_run_Raise _ _ _ _ _ Hrun). cbn.
    repeat split; assumption.
Qed.

Lemma inv_store (h0 h : heap) (a : nat) (t t' : tensor) :
  inv h0 h (RRef a) (OTensor t) ->
  inv h0 (store_at 0 a a t' h) (RRef a) (OTensor t').
Proof.
  intros (Hp & Hb & Hacc). cbn in Hacc. destruct Hacc as (Ha & Hha & Hl).
  destruct (write_lonely h a t t' Hha Hl) as (_ & Hha' & Hother).
  split; [|split; [|split; [exact Ha|split; [exact Hha'|]]]].
  - destruct Hp as [new ->].
    destruct (store_at_preserved h0 new a t' Ha Hl) as (new' & -> & _).
    exists new'. reflexivity.
  - intros k c Hk. rewrite length_store_at.
    destruct (Nat.eq_dec k a) as [->|Hka].
    + rewrite Hha' in Hk. injection Hk as <-. cbn.
      eapply holds_lt; eassumption.
    + rewrite Hother in Hk by exact Hka. eapply Hb; eassumption.
  - intros k c Hk Hka. rewrite Hother in Hk by exact Hka.
    eapply Hl; eassumption.
Qed.

(** [acc += l] for an object [l] of the heap. *)
Lemma step_iadd (h0 h : heap) (acc : pyref) (pacc : pyobj) (l s : nat)
    (t : tensor) :
  inv h0 h acc pacc -> holds h l s t ->
  step_ok h0 (r_iadd acc l h) (py_iadd pacc t).
Proof.
  intros Hinv Hl. pose proof Hinv as (Hp & Hb & Hacc).
  destruct acc as [v|a], pacc as [v'|ta]; cbn in Hacc;
    [subst v' | contradiction | contradiction | destruct Hacc as (Ha & Hha & Hlo)].
  - cbn [r_iadd py_iadd].
    rewrite (bind_run_Ok _ _ _ _ _ (read_holds _ _ _ _ Hl)).
    unfold bind_run, lift, fresh, unit_run.
    destruct (t_radd_scalar v t) as [t'|e]; cbn.
    + exists (RRef (List.length h)). split; [reflexivity|].
      split; [apply preserved_app; exact Hp|].
      split; [apply bounded_snoc; [exact Hb|cbn; lia]|].
      split; [apply preserved_length; exact Hp|].
      split; [apply holds_snoc|].
      intros k c Hk Hka.
      assert (Hlt : k < List.length h).
      { assert (k < List.length (h ++ [mk_cell (List.length h) (Some t')])).
        { apply nth_error_Some. congruence. }
        rewrite length_app in *. cbn in *. lia. }
      rewrite nth_error_app1 in Hk by exact Hlt.
      apply Hb in Hk. lia.
    + repeat split; assumption.
  - cbn [r_iadd py_iadd].
    rewrite (bind_run_Ok _ _ _ _ _ (read_holds _ _ _ _ Hha)).
    rewrite (bind_run_Ok _ _ _ _ _ (read_holds _ _ _ _ Hl)).
    unfold bind_run at 1. unfold lift.
    destruct (t_iadd ta t) as [t'|e]; cbn.
    + destruct (write_lonely h a ta t' Hha Hlo) as (Hw & _ & _).
      rewrite (bind_run_Ok _ _ _ _ _ Hw). unfold unit_run. cbn.
      exists (RRef a). split; [reflexivity|].
      apply (inv_store h0 h a ta t'). exact Hinv.
    + repeat split; assumption.
Qed.

(** [acc /= d]. *)
Lemma step_itruediv (h0 h : heap) (acc : pyref) (pacc : pyobj) (d : pyval) :
  inv h0 h acc pacc ->
  step_ok h0 (r_itruediv acc d h) (py_itruediv pacc d).
Proof.
  intros Hinv. pose proof Hinv as (Hp & Hb & Hacc).
  destruct acc as [v|a], pacc as [v'|ta]; cbn in Hacc;
    [subst v' | contradiction | contradiction | destruct Hacc as (Ha & Hha & Hlo)].
  - cbn [r_itruediv py_itruediv]. unfold bind_run, lift, unit_run.
    destruct (py_truediv v d) as [q|e]; cbn.
    + exists (RVal q). split; [reflexivity|]. repeat split; assumption.
    + repeat split; assumption.
  - cbn [r_itruediv py_itruediv].
    rewrite (bind_run_Ok _ _ _ _ _ (read_holds _ _ _ _ Hha)).
    unfold bind_run at 1. unfold lift.
    destruct (t_idiv_scalar ta d) as [t'|e]; cbn.
    + destruct (write_lonely h a ta t' Hha Hlo) as (Hw & _ & _).
      rewrite (bind_run_Ok _ _ _ _ _ Hw). unfold unit_run. cbn.
      exists (RRef a). split; [reflexivity|].
      apply (inv_store h0 h a ta t'). exact Hinv.
    + repeat split; assumption.
Qed.

(** A loop whose every iteration refines the iteration on values. *)
Lemma step_loop {A : Type} (h0 : heap) (body_run : A -> pyref -> run heap pyref)
    (body : A -> pyobj -> result pyobj) :
  (forall i acc pacc h,
      inv h0 h acc pacc -> step_ok h0 (body_run i acc h) (body i pacc)) ->
  forall (idx : list A) (acc : pyref) (pacc : pyobj) (h : heap),
    inv h0 h acc pacc ->
    step_ok h0 (for_loop_run idx body_run acc h) (for_loop idx body pacc).
Proof.
  intros Hbody idx. induction idx as [|i idx IH]; intros acc pacc h Hinv.
  - cbn. exists acc. split; [reflexivity|exact Hinv].
  - cbn [for_loop_run for_loop]. apply step_bind.
    + apply Hbody. exact Hinv.
    + intros acc' pacc' h' Hinv'. apply IH. exact Hinv'.
Qed.
End Refinement.

(** * Determinism of the regression losses *)

Section Determinism.
Context `{Torch}.
Variable L1Loss : pyval -> tensor -> tensor -> result tensor.
Variable MSELoss : pyval -> tensor -> tensor -> result tensor.

(** The call is made from the heap [h0], in which [inp] and [target] are
    objects holding [vi] and [vt]. *)
Variable h0 : heap.
Variables inp target si st : nat.
Variables vi vt : tensor.
Hypothesis Hb0 : bounded h0.
Hypothesis Hinp : holds h0 inp si vi.
Hypothesis Htarget : holds h0 target st vt.

Lemma inv_bounded (h : heap) (acc : pyref) (pacc : pyobj) :
  inv h0 h acc pacc -> bounded h.
Proof. intros (_ & Hb & _). exact Hb. Qed.

Lemma inv_holds (h : heap) (acc : pyref) (pacc : pyobj) (r s : nat) (t : tensor) :
  inv h0 h acc pacc -> holds h0 r s t -> holds h r s t.
Proof. intros (Hp & _ & _). apply preserved_holds. exact Hp. Qed.

(** A primitive applied to the slices of class [i], then [acc += l]. *)
Lemma step_class (i : nat)
    (acc : pyref) (pacc : pyobj) (h : heap)
    (k : nat -> nat -> run heap pyref) (kp : tensor -> tensor -> result pyobj) :
  inv h0 h acc pacc ->
  (forall h' x sx vx y sy vy,
      inv h0 h' acc pacc -> holds h' x sx vx -> holds h' y sy vy ->
      avoid acc sx -> avoid acc sy ->
      step_ok h0 (k x y h') (kp vx vy)) ->
  step_ok h0
    ((x <~ r_select inp i ;; y <~ r_select target i ;; k x y) h)
    (x <- t_select vi i ;; y <- t_select vt i ;; kp x y).
Proof.
  intros Hinv Hk.
  eapply step_alloc; [exact Hinv | |].
  { apply (allocates_view _ _ inp si vi (fun v => t_select v i));
      [eapply inv_bounded | eapply inv_holds | eapply avoid_initial]; eassumption. }
  intros h1 x sx vx Hp1 Hinv1 Hx Hsx.
  eapply step_alloc; [exact Hinv1 | |].
  { apply (allocates_view _ _ target st vt (fun v => t_select v i));
      [eapply inv_bounded | eapply inv_holds | eapply avoid_initial]; eassumption. }
  intros h2 y sy vy Hp2 Hinv2 Hy Hsy.
  apply (Hk h2 x sx vx y sy vy); try assumption.
  eapply preserved_holds; eassumption.
Qed.

(** A primitive applied to two objects, then [acc += l]. *)
Lemma step_prim (criterion : pyval -> tensor -> tensor -> result tensor)
    (acc : pyref) (pacc : pyobj) (h : heap) (x sx y sy : nat) (vx vy : tensor)
    (reduction scaling_factor : pyval) :
  inv h0 h acc pacc -> holds h x sx vx -> holds h y sy vy ->
  avoid acc sx -> avoid acc sy ->
  step_ok h0
    ((l <~ MSE_run criterion x y reduction scaling_factor ;; r_iadd acc l) h)
    (l <- MSE criterion vx vy reduction scaling_factor ;; py_iadd pacc l).
Proof.
  intros Hinv Hx Hy Hsx Hsy.
  eapply step_alloc; [exact Hinv | |].
  { apply (MSE_run_allocates criterion _ _ x y sx sy);
      [eapply inv_bounded; eassumption | assumption..]. }
  intros h' l sl tl _ Hinv' Hl _. eapply step_iadd; eassumption.
Qed.

(** [MSE_loss] on references refines [MSE_loss] on values. *)
Theorem MSE_loss_run_refines (params : pyval) :
  step_ok h0 (MSE_loss_run MSELoss inp target params h0)
    (MSE_loss MSELoss vi vt params).
Proof.
  unfold MSE_loss_run, MSE_loss.
  pose proof (inv_start h0 (PInt 0) Hb0) as Hinv0.
  eapply step_lift; [exact Hinv0|]. intros reduction _.
  eapply step_shape; [exact Hinv0 | exact Hinp |]. intros batch _.
  apply step_bind.
  - destruct (batch =? 1); destruct (negb (py_is_none params)).
    + eapply step_lift; [exact Hinv0|]. intros sf _.
      eapply step_prim; try eassumption; exact I.
    + eapply step_prim; try eassumption; exact I.
    + eapply step_lift; [exact Hinv0|]. intros nc _.
      eapply step_lift; [exact Hinv0|]. intros classes _.
      apply step_loop; [|exact Hinv0].
      intros i acc pacc h Hinv.
      apply (step_class i acc pacc); [exact Hinv|].
      intros h' x sx vx y sy vy Hinv' Hx Hy Hsx Hsy.
      eapply step_lift; [exact Hinv'|]. intros sf _.
      eapply step_prim; eassumption.
    + eapply step_shape; [exact Hinv0 | exact Hinp |]. intros channels _.
      apply step_loop; [|exact Hinv0].
      intros i acc pacc h Hinv.
      apply (step_class i acc pacc); [exact Hinv|].
      intros h' x sx vx y sy vy Hinv' Hx Hy Hsx Hsy.
      eapply step_prim; eassumption.
  - intros acc pacc h Hinv. destruct (negb (py_is_none params)).
    + eapply step_lift; [exact Hinv|]. intros nc _.
      apply step_itruediv. exact Hinv.
    + eapply step_shape; [exact Hinv | eapply inv_holds; eassumption |].
      intros channels _. apply step_itruediv. exact Hinv.
Qed.

(** [L1_loss] on references refines [L1_loss] on values. *)
Theorem L1_loss_run_refines (params : pyval) :
  step_ok h0 (L1_loss_run L1Loss inp target params h0)
    (L1_loss L1Loss vi vt params).
Proof.
  unfold L1_loss_run, L1_loss, L1_run, L1.
  change (fun output label reduction scaling_factor => ?b) with b.
  pose proof (inv_start h0 (PInt 0) Hb0) as Hinv0.
  eapply step_shape; [exact Hinv0 | exact Hinp |]. intros batch _.
  apply step_bind.
  - destruct (batch =? 1); destruct (negb (py_is_none params)).
    + eapply step_lift; [exact Hinv0|]. intros reduction _.
      eapply step_lift; [exact Hinv0|]. intros sf _.
      eapply (step_prim L1Loss); try eassumption; exact I.
    + eapply (step_prim L1Loss); try eassumption; exact I.
    + eapply step_lift; [exact Hinv0|]. intros nc _.
      eapply step_lift; [exact Hinv0|]. intros classes _.
      apply step_loop; [|exact Hinv0].
      intros i acc pacc h Hinv.
      apply (step_class i acc pacc); [exact Hinv|].
      intros h' x sx vx y sy vy Hinv' Hx Hy Hsx Hsy.
      eapply step_lift; [exact Hinv'|]. intros reduction _.
      eapply step_lift; [exact Hinv'|]. intros sf _.
      eapply (step_prim L1Loss); eassumption.
    + eapply step_shape; [exact Hinv0 | exact Hinp |]. intros channels _.
      apply step_loop; [|exact Hinv0].
      intros i acc pacc h Hinv.
      apply (step_class i acc pacc); [exact Hinv|].
      intros h' x sx vx y sy vy Hinv' Hx Hy Hsx Hsy.
      eapply (step_prim L1Loss); eassumption.
  - intros acc pacc h Hinv. destruct (negb (py_is_none params)).
    + eapply step_lift; [exact Hinv|]. intros nc _.
      apply step_itruediv. exact Hinv.
    + eapply step_shape; [exact Hinv | eapply inv_holds; eassumption |].
      intros channels _. apply step_itruediv. exact Hinv.
Qed.
End Determinism.

Section Purity.
Context `{Torch}.
Variable L1Loss : pyval -> tensor -> tensor -> result tensor.
Variable MSELoss : pyval -> tensor -> tensor -> result tensor.

Lemma well_formed_bounded (h : heap) : well_formed h = true -> bounded h.
Proof.
  unfold well_formed. intros Hwf k c Hk.
  rewrite forallb_forall in Hwf. apply nth_error_In in Hk.
  apply Nat.ltb_lt. apply Hwf. exact Hk.
Qed.

(** What a refining run hands back is the outcome on values, and it
    leaves every object of the initial heap as it was. *)
Lemma step_ok_outcome (h0 : heap) (x : result pyref * heap) (r : result pyobj) :
  step_ok h0 x r -> outcome x = r /\ preserved h0 (snd x) /\ bounded (snd x).
Proof.
  destruct x as [res h']. destruct r as [pacc|e]; cbn.
  - intros (acc & -> & Hp & Hb & Hacc). split; [|split; assumption].
    destruct acc as [v|a], pacc as [v'|t]; cbn in Hacc; try contradiction.
    + subst v'. reflexivity.
    + destruct Hacc as (_ & Ha & _). rewrite (holds_value _ _ _ _ Ha). reflexivity.
  - intros (-> & Hp & Hb). split; [reflexivity|split; assumption].
Qed.

Lemma preserved_value (h h' : heap) (r : nat) (t : tensor) :
  preserved h h' -> value_at h r = Some t -> value_at h' r = Some t.
Proof.
  intros Hp Hr. destruct (value_holds _ _ _ Hr) as [s Hs].
  eapply holds_value. eapply preserved_holds; eassumption.
Qed.

(** A call of a regression loss on a heap in which the arguments hold
    [vi] and [vt]: its outcome is the loss of [vi] and [vt], and the
    objects of the heap, the arguments among them, are left as they
    were. *)
Lemma MSE_loss_run_pure (params : pyval) (vi vt : tensor) (h : heap)
    (inp target : nat) :
  well_formed h = true ->
  value_at h inp = Some vi -> value_at h target = Some vt ->
  outcome (MSE_loss_run MSELoss inp target params h) = MSE_loss MSELoss vi vt params
  /\ preserved h (snd (MSE_loss_run MSELoss inp target params h))
  /\ bounded (snd (MSE_loss_run MSELoss inp target params h)).
Proof.
  intros Hwf Hi Ht.
  destruct (value_holds _ _ _ Hi) as [si Hsi].
  destruct (value_holds _ _ _ Ht) as [st Hst].
  apply step_ok_outcome.
  eapply MSE_loss_run_refines; eauto using well_formed_bounded.
Qed.

Lemma L1_loss_run_pure (params : pyval) (vi vt : tensor) (h : heap)
    (inp target : nat) :
  well_formed h = true ->
  value_at h inp = Some vi -> value_at h target = Some vt ->
  outcome (L1_loss_run L1Loss inp target params h) = L1_loss L1Loss vi vt params
  /\ preserved h (snd (L1_loss_run L1Loss inp target params h))
  /\ bounded (snd (L1_loss_run L1Loss inp target params h)).
Proof.
  intros Hwf Hi Ht.
  destruct (value_holds _ _ _ Hi) as [si Hsi].
  destruct (value_holds _ _ _ Ht) as [st Hst].
  apply step_ok_outcome.
  eapply L1_loss_run_refines; eauto using well_formed_bounded.
Qed.

Lemma bounded_well_formed (h : heap) : bounded h -> well_formed h = true.
Proof.
  intros Hb. unfold well_formed. apply forallb_forall. intros c Hin.
  apply In_nth_error in Hin. destruct Hin as [k Hk].
  apply Nat.ltb_lt. eapply Hb. exact Hk.
Qed.

(** C10.  Two invocations of [MSE_loss], or of [L1_loss], with the same
    [params] and with arguments that hold the same tensors return the same
    value, whatever else the two heaps hold and wherever the arguments
    live in them: the value is the loss of the argument values.  A call
    leaves its arguments as they were, so a second invocation on the heap
    the first one leaves returns that value again. *)
Theorem regression_losses_deterministic (params : pyval) (vi vt : tensor)
    (h1 h2 : heap) (inp1 target1 inp2 target2 : nat) :
  well_formed h1 = true -> well_formed h2 = true ->
  value_at h1 inp1 = Some vi -> value_at h1 target1 = Some vt ->
  value_at h2 inp2 = Some vi -> value_at h2 target2 = Some vt ->
  (outcome (MSE_loss_run MSELoss inp1 target1 params h1)
   = outcome (MSE_loss_run MSELoss inp2 target2 params h2)
   /\
   outcome (L1_loss_run L1Loss inp1 target1 params h1)
   = outcome (L1_loss_run L1Loss inp2 target2 params h2))
  /\
  (outcome (MSE_loss_run MSELoss inp1 target1 params
              (snd (MSE_loss_run MSELoss inp1 target1 params h1)))
   = outcome (MSE_loss_run MSELoss inp1 target1 params h1)
   /\
   outcome (L1_loss_run L1Loss inp1 target1 params
              (snd (L1_loss_run L1Loss inp1 target1 params h1)))
   = outcome (L1_loss_run L1Loss inp1 target1 params h1))
  /\
  (outcome (MSE_loss_run MSELoss inp1 target1 params h1)
   = MSE_loss MSELoss vi vt params
   /\
   outcome (L1_loss_run L1Loss inp1 target1 params h1)
   = L1_loss L1Loss vi vt params).
Proof.
  intros Hwf1 Hwf2 Hi1 Ht1 Hi2 Ht2.
  destruct (MSE_loss_run_pure params vi vt h1 inp1 target1 Hwf1 Hi1 Ht1)
    as (Hm1 & Hpm & Hbm).
  destruct (L1_loss_run_pure params vi vt h1 inp1 target1 Hwf1 Hi1 Ht1)
    as (Hl1 & Hpl & Hbl).
  destruct (MSE_loss_run_pure params vi vt h2 inp2 target2 Hwf2 Hi2 Ht2)
    as (Hm2 & _ & _).
  destruct (L1_loss_run_pure params vi vt h2 inp2 target2 Hwf2 Hi2 Ht2)
    as (Hl2 & _ & _).
  split; [split; congruence|]. split; [|split; assumption].
  split.
  - rewrite Hm1.
    apply (MSE_loss_run_pure params vi vt _ inp1 target1);
      [apply bounded_well_formed; exact Hbm | eapply preserved_value; eassumption..].
  - rewrite Hl1.
    apply (L1_loss_run_pure params vi vt _ inp1 target1);
      [apply bounded_well_formed; exact Hbl | eapply preserved_value; eassumption..].
Qed.
End Purity.

(** * Runs on the binary32 backend *)

Section Runs.
Import Samples.
#[local] Existing Instance Samples.backend.

Ltac run := vm_compute; reflexivity.
Ltac run_values :=
  unfold values_at; repeat (constructor; [run|]); constructor.

(** The configured losses on two samples: the per-class MSE values are
    1, 4 and 9 and [MSE_loss] returns [(0 + 1 + 4 + 9) / 3]; the per-class
    L1 values are 1, 2 and 3 and [L1_loss] returns [(0 + 1 + 2 + 3) / 3]. *)
Lemma class_sum_divided_once_witness :
  (values_at (per_class mse_mean inp target) 3 [ratio 1 1; ratio 4 1; ratio 9 1]
   /\ MSE_loss F32.MSELoss inp target params = Ok (OTensor (ratio 14 3)))
  /\
  (values_at (per_class l1_mean inp target) 3 [ratio 1 1; ratio 2 1; ratio 3 1]
   /\ L1_loss F32.L1Loss inp target params = Ok (OTensor (ratio 2 1))).
Proof.
  destruct (class_sum_divided_once (H := backend) F32.L1Loss F32.MSELoss inp target params
              (PInt 1) 2 [3; 2] 3) as [Hmse Hl1];
    [reflexivity | lia | reflexivity | reflexivity | reflexivity |].
  split; (split; [run_values|]).
  - rewrite (Hmse (PStr "mean") [ratio 1 1; ratio 4 1; ratio 9 1]);
      [run | run | run_values].
  - rewrite (Hl1 (PStr "mean") [ratio 1 1; ratio 2 1; ratio 3 1]);
      [run | run | run_values].
Defined.

(** The configured losses on one sample of three classes: the MSE of the
    whole tensor is [28 / 6] and [MSE_loss] returns [(28 / 6) / 3], which
    in binary32 is [13048945 * 2^-23], about 1.5555555; its L1 is
    [12 / 6] and [L1_loss] returns [2 / 3]. *)
Lemma single_sample_whole_tensor_witness :
  (mse_mean inp1 target1 = Ok (ratio 28 6)
   /\ MSE_loss F32.MSELoss inp1 target1 params
      = Ok (OTensor (float_tensor [] [S754_finite false 13048945 (-23)])))
  /\
  (l1_mean inp1 target1 = Ok (ratio 2 1)
   /\ L1_loss F32.L1Loss inp1 target1 params = Ok (OTensor (ratio 2 3))).
Proof.
  destruct (single_sample_whole_tensor (H := backend) F32.L1Loss F32.MSELoss inp1 target1
              params (PInt 1) (PInt 3) [3; 2]) as [Hmse Hl1];
    [reflexivity | reflexivity | reflexivity | reflexivity |].
  split; (split; [run|]).
  - rewrite (Hmse (PStr "mean") (ratio 28 6)); run.
  - rewrite (Hl1 (PStr "mean") (ratio 2 1)); run.
Defined.

(** On that sample the value returned is not the sum of the per-class
    values divided by the number of classes: the per-class MSE values are
    1, 4 and 9, whose sum over 3 is [14 / 3], and [MSE_loss] returns
    [(28 / 6) / 3]. *)
Example single_sample_is_not_class_sum :
  values_at (per_class mse_mean inp1 target1) 3 [ratio 1 1; ratio 4 1; ratio 9 1]
  /\ (s <- py_sum [ratio 1 1; ratio 4 1; ratio 9 1] ;; py_itruediv s (PInt 3))
     = Ok (OTensor (ratio 14 3))
  /\ MSE_loss F32.MSELoss inp1 target1 params
     <> (s <- py_sum [ratio 1 1; ratio 4 1; ratio 9 1] ;; py_itruediv s (PInt 3)).
Proof.
  split; [run_values | split; [run | vm_compute; discriminate]].
Qed.

(** The losses without a configuration, on two samples and on one: the
    values are those of the configuration that names the defaults. *)
Lemma no_config_defaults_witness :
  (MSE_loss F32.MSELoss inp target PNone = Ok (OTensor (ratio 14 3))
   /\
   L1_loss F32.L1Loss inp target PNone = Ok (OTensor (ratio 2 1)))
  /\
  (MSE_loss F32.MSELoss inp1 target1 PNone
   = Ok (OTensor (float_tensor [] [S754_finite false 13048945 (-23)]))
   /\
   L1_loss F32.L1Loss inp1 target1 PNone = Ok (OTensor (ratio 2 3))).
Proof.
  split.
  - destruct (no_config_defaults (H := backend) F32.L1Loss F32.MSELoss inp target 2 3 [2])
      as [[Hmse Hl1] _]; [reflexivity | lia |].
    split.
    + rewrite (Hmse [ratio 1 1; ratio 4 1; ratio 9 1]); [run | run_values].
    + rewrite (Hl1 [ratio 1 1; ratio 2 1; ratio 3 1]); [run | run_values].
  - destruct (no_config_defaults (H := backend) F32.L1Loss F32.MSELoss inp1 target1 1 3 [2])
      as [_ [Hmse Hl1]]; [reflexivity | reflexivity |].
    split.
    + rewrite (Hmse (ratio 28 6)); run.
    + rewrite (Hl1 (ratio 2 1)); run.
Defined.


(** The scenario of shape [[2, 3, 4, 4]]: each per-class MSE value is 1. *)
Lemma MSE_loss_mean_of_three_witness :
  MSE_loss F32.MSELoss ones zeros params
  = py_mean [ratio 1 1; ratio 1 1; ratio 1 1].
Proof.
  apply (MSE_loss_mean_of_three (H := backend) F32.MSELoss ones zeros params);
    [reflexivity | reflexivity | reflexivity | reflexivity | reflexivity
    | run | run | run].
Defined.

(** C5 as the specification words it fails on that scenario: the three
    per-class MSE values are 1, [MSE_loss] returns 1, their mean, while the
    mean divided again by 3 is [1 / 3]. *)
Lemma MSE_loss_not_divided_again :
  values_at (per_class mse_mean ones zeros) 3 [ratio 1 1; ratio 1 1; ratio 1 1]
  /\ MSE_loss F32.MSELoss ones zeros params = Ok (OTensor (ratio 1 1))
  /\ divided_again [ratio 1 1; ratio 1 1; ratio 1 1] 3 = Ok (OTensor (ratio 1 3))
  /\ MSE_loss F32.MSELoss ones zeros params
     <> divided_again [ratio 1 1; ratio 1 1; ratio 1 1] 3.
Proof.
  split; [run_values | split; [run | split; [run | vm_compute; discriminate]]].
Qed.

(** [CCE_Generic] with the weights [None]: the loop finishes with the
    unweighted sum [0.5 + 0.5] and the call raises. *)
Lemma CCE_Generic_unbound_total_loss_witness :
  CCE_Generic_loop F32.one_hot out2 labels2 (cce_params PNone) mse_mean
  = Ok (OTensor (ratio 1 1))
  /\
  CCE_Generic F32.one_hot out2 labels2 (cce_params PNone) mse_mean
  = Raise (UnboundLocalError "total_loss").
Proof.
  assert (Hloop : CCE_Generic_loop F32.one_hot out2 labels2 (cce_params PNone)
                    mse_mean = Ok (OTensor (ratio 1 1))) by run.
  split; [exact Hloop|].
  exact (proj2 (CCE_Generic_unbound_total_loss (H := backend) F32.one_hot out2 labels2
                  (cce_params PNone) mse_mean eq_refl) _ Hloop).
Defined.

(** [CCE_Generic] with two classes and the weights [[0.5, 2.0]]: both
    class losses are [1 / 2], the products are [1 / 4] and [1], and the
    value returned is their sum [5 / 4]. *)
Lemma CCE_Generic_weighted_sum_witness :
  values_at (per_class mse_mean out2 (F32.cast_tensor F32.Float32 hot2)) 2
    [ratio 1 2; ratio 1 2]
  /\
  CCE_Generic F32.one_hot out2 labels2 (cce_params weights2) mse_mean
  = py_sum [ratio 1 4; ratio 1 1]
  /\
  py_sum [ratio 1 4; ratio 1 1] = Ok (OTensor (ratio 5 4)).
Proof.
  split; [run_values | split; [|run]].
  apply (CCE_Generic_weighted_sum (H := backend) F32.one_hot out2 labels2 hot2
           (cce_params weights2) weights2 class_list2 2 mse_mean);
    [reflexivity | reflexivity | reflexivity | reflexivity | run | run_values].
Defined.

(** [CEL] with two weights and an output of three classes. *)
Lemma CEL_weight_count_witness :
  CEL no_criterion out3 labels3 cel_params
  = Raise (ValueError "Number of classes 2 does not match output shape 3").
Proof.
  apply (proj1 (CEL_weight_count (H := backend) no_criterion out3 labels3 cel_params
                  two_weights 3 eq_refl eq_refl)).
  cbn. lia.
Defined.

(** C2 on the code: a target holding 2 passes the guard of [CE] and of
    [CE_Logits], which hand it to the criterion with whatever output. *)
Theorem CE_accepts_target_two
    (BCELoss BCEWithLogitsLoss : F32.tensor -> F32.tensor -> result F32.tensor)
    (out : F32.tensor) :
  CE BCELoss out two = BCELoss (t_float (t_flatten out)) (t_float (t_flatten two))
  /\
  CE_Logits BCEWithLogitsLoss out two
  = BCEWithLogitsLoss (t_flatten out) (t_flatten two).
Proof.
  exact (CE_guard (H := backend) BCEWithLogitsLoss BCELoss out two
           (F32.mk_tensor F32.Bool [1] [F32.SInt 1]) eq_refl).
Qed.

(** Every whole number from 0 to 255 passes the guard, and one half does
    not. *)
Example guard_accepts_bytes :
  forallb (fun z => match t_eq (t_byte (F32.of_ints [1] [z])) (F32.of_ints [1] [z]) with
                    | Ok same => t_all same
                    | Raise _ => false
                    end)
    (map Z.of_nat (seq 0 256)) = true
  /\
  forall BCELoss : F32.tensor -> F32.tensor -> result F32.tensor,
    CE BCELoss (ratio 1 2) (ratio 1 2)
    = Raise (ValueError "Target tensor must be binary (0 or 1)").
Proof.
  split; [run|]. intros BCELoss.
  exact (proj1 (CE_guard (H := backend) BCELoss BCELoss (ratio 1 2) (ratio 1 2)
                  (F32.mk_tensor F32.Bool [] [F32.SInt 0]) eq_refl)).
Qed.

(** The configured losses called on two different heaps that hold the
    same arguments. *)
Lemma regression_losses_deterministic_witness :
  outcome (MSE_loss_run F32.MSELoss 0 1 params heap1)
  = outcome (MSE_loss_run F32.MSELoss 2 0 params heap2)
  /\
  outcome (L1_loss_run F32.L1Loss 0 1 params heap1)
  = outcome (L1_loss_run F32.L1Loss 2 0 params heap2).
Proof.
  exact (proj1 (regression_losses_deterministic (H := backend) F32.L1Loss
                  F32.MSELoss params inp target heap1 heap2 0 1 2 0
                  eq_refl eq_refl eq_refl eq_refl eq_refl eq_refl)).
Defined.

(** The value of those calls, and the first heap after the call: the
    arguments are where they were. *)
Example regression_losses_run :
  outcome (MSE_loss_run F32.MSELoss 0 1 params heap1) = Ok (OTensor (ratio 14 3))
  /\ outcome (MSE_loss_run F32.MSELoss 2 0 params heap2) = Ok (OTensor (ratio 14 3))
  /\ firstn 2 (snd (MSE_loss_run F32.MSELoss 0 1 params heap1)) = heap1.
Proof. repeat split; run. Qed.
End Runs.

(** * Further facts about the regression losses *)

Section RegressionEdges.
Context `{Torch}.
Variables L1Loss MSELoss : pyval -> tensor -> tensor -> result tensor.

(** Two loops whose bodies agree are the same loop. *)
Lemma for_loop_ext {A S : Type} (body body' : A -> S -> result S) :
  (forall i s, body i s = body' i s) ->
  forall (idx : list A) (s : S), for_loop idx body s = for_loop idx body' s.
Proof.
  intros Hbody idx. induction idx as [|i idx IH]; intros s; cbn [for_loop].
  - reflexivity.
  - rewrite Hbody. destruct (body' i s) as [s'|e]; [|reflexivity].
    rewrite !bind_Ok. apply IH.
Qed.

(** A loop that gets through the indices [pre] and fails at the next one
    raises the error of that one; the indices after it are not run. *)
Lemma for_loop_raises_at {A B S : Type} (f : A -> result B)
    (g : B -> S -> result S) (body : A -> S -> result S) :
  (forall i s, body i s = (l <- f i ;; g l s)) ->
  forall (pre post : list A) (j : A) (ls : list B) (s s' : S) (e : pyerr),
    Forall2 (fun i l => f i = Ok l) pre ls ->
    for_loop ls g s = Ok s' ->
    f j = Raise e ->
    for_loop (pre ++ j :: post) body s = Raise e.
Proof.
  intros Hbody pre post j ls s s' e Hall. revert s.
  induction Hall as [|i l pre ls Hi _ IH]; intros s Hsum Hj.
  - cbn [app for_loop]. rewrite Hbody, Hj. reflexivity.
  - cbn [app for_loop] in *. rewrite Hbody, Hi, bind_Ok.
    destruct (g l s) as [s1|e1]; [|discriminate Hsum].
    rewrite bind_Ok in *. apply IH; assumption.
Qed.

Lemma seq_split (j n : nat) :
  j < n -> seq 0 n = seq 0 j ++ j :: seq (S j) (n - S j).
Proof.
  intros Hj. replace n with (j + S (n - S j)) at 1 by lia.
  rewrite seq_app. reflexivity.
Qed.

(** X1.  The first failing class.  With more than one sample and a
    configuration, when the classes [0 .. j-1] give the losses [losses],
    whose running sum is defined, and the loss of class [j] raises, the
    aggregator raises that same error: the classes after [j] are not
    visited and the final division is not reached.  [MSE_loss] does so
    with the reduction it has resolved, the default included; [L1_loss]
    with the reduction of the ["mse"] entry, which its loop reads. *)
Theorem first_failing_class (inp target : tensor) (params sf : pyval)
    (batch : nat) (rest : list nat) (nc : Z) (j : nat) (e : pyerr) :
  t_shape inp = batch :: rest ->
  batch <> 1 ->
  py_is_none params = false ->
  py_path params ["model"; "num_classes"] = Ok (PInt nc) ->
  py_getitem params (KStr "scaling_factor") = Ok sf ->
  j < Z.to_nat nc ->
  (forall reduction losses acc,
      MSE_loss_reduction params = Ok reduction ->
      values_at (per_class (fun x y => MSE MSELoss x y reduction sf) inp target)
        j losses ->
      py_sum losses = Ok acc ->
      per_class (fun x y => MSE MSELoss x y reduction sf) inp target j = Raise e ->
      MSE_loss MSELoss inp target params = Raise e)
  /\
  (forall reduction losses acc,
      py_path params ["loss_function"; "mse"; "reduction"] = Ok reduction ->
      values_at (per_class (fun x y => L1 L1Loss x y reduction sf) inp target)
        j losses ->
      py_sum losses = Ok acc ->
      per_class (fun x y => L1 L1Loss x y reduction sf) inp target j = Raise e ->
      L1_loss L1Loss inp target params = Raise e).
Proof.
  intros Hshape Hb Hnone Hnc Hsf Hj.
  apply Nat.eqb_neq in Hb.
  split; intros reduction losses acc Hred Hall Hsum Hje.
  - unfold MSE_loss.
    rewrite Hred, Hshape, shape_at_0, !bind_Ok.
    rewrite Hb, Hnone. cbn [negb]. rewrite Hnc, !bind_Ok. cbn [py_range].
    rewrite !bind_Ok, (seq_split j _ Hj).
    rewrite (for_loop_raises_at _ (fun l acc => py_iadd acc l) _
               (MSE_loss_body MSELoss inp target params reduction sf Hsf)
               _ _ _ _ _ _ e Hall Hsum Hje).
    reflexivity.
  - unfold L1_loss. rewrite Hshape, shape_at_0, !bind_Ok.
    rewrite Hb, Hnone. cbn [negb]. rewrite Hnc, !bind_Ok. cbn [py_range].
    rewrite !bind_Ok, (seq_split j _ Hj).
    rewrite (for_loop_raises_at _ (fun l acc => py_iadd acc l) _
               (L1_loss_body L1Loss inp target params reduction sf Hred Hsf)
               _ _ _ _ _ _ e Hall Hsum Hje).
    reflexivity.
Qed.

(** X2.  No classes.  With more than one sample and
    [num_classes] equal to 0 the loop body never runs, no key but
    [num_classes] is read by the loop, and the final division is [0 / 0]:
    the call raises [ZeroDivisionError].  Without a configuration the same
    happens for an input with no channels. *)
Theorem no_classes_divide_by_zero (inp target : tensor) (batch : nat)
    (rest : list nat) :
  t_shape inp = batch :: rest ->
  batch <> 1 ->
  (forall params reduction,
      py_is_none params = false ->
      py_path params ["model"; "num_classes"] = Ok (PInt 0) ->
      (MSE_loss_reduction params = Ok reduction ->
       MSE_loss MSELoss inp target params = Raise ZeroDivisionError)
      /\ L1_loss L1Loss inp target params = Raise ZeroDivisionError)
  /\
  (forall rest', rest = 0 :: rest' ->
      MSE_loss MSELoss inp target PNone = Raise ZeroDivisionError
      /\ L1_loss L1Loss inp target PNone = Raise ZeroDivisionError).
Proof.
  intros Hshape Hb. apply Nat.eqb_neq in Hb. split.
  - intros params reduction Hnone Hnc. split.
    + intros Hred. unfold MSE_loss.
      rewrite Hred, Hshape, shape_at_0, !bind_Ok, Hb, Hnone. cbn [negb].
      rewrite Hnc, !bind_Ok. reflexivity.
    + unfold L1_loss.
      rewrite Hshape, shape_at_0, !bind_Ok, Hb, Hnone. cbn [negb].
      rewrite Hnc, !bind_Ok. reflexivity.
  - intros rest' ->. split.
    + unfold MSE_loss. cbn [MSE_loss_reduction py_is_none negb].
      rewrite Hshape, shape_at_0, shape_at_1, !bind_Ok, Hb. reflexivity.
    + unfold L1_loss. cbn [py_is_none negb].
      rewrite Hshape, shape_at_0, shape_at_1, !bind_Ok, Hb. reflexivity.
Qed.

(** X3.  Inputs with too few dimensions.  For a 0-dimensional input
    [inp.shape[0]] raises [IndexError] before any loss is computed, with or
    without a configuration; for a 1-dimensional input of more than one
    sample and no configuration, [inp.shape[1]] raises it. *)
Theorem too_few_dimensions (inp target : tensor) :
  (t_shape inp = [] ->
   forall params,
     L1_loss L1Loss inp target params
     = Raise (IndexError "tuple index out of range")
     /\
     (forall reduction,
         MSE_loss_reduction params = Ok reduction ->
         MSE_loss MSELoss inp target params
         = Raise (IndexError "tuple index out of range")))
  /\
  (forall batch,
      t_shape inp = [batch] -> batch <> 1 ->
      L1_loss L1Loss inp target PNone
      = Raise (IndexError "tuple index out of range")
      /\
      MSE_loss MSELoss inp target PNone
      = Raise (IndexError "tuple index out of range")).
Proof.
  split.
  - intros Hshape params. split.
    + unfold L1_loss. rewrite Hshape. reflexivity.
    + intros reduction Hred. unfold MSE_loss. rewrite Hred, Hshape. reflexivity.
  - intros batch Hshape Hb. apply Nat.eqb_neq in Hb. split.
    + unfold L1_loss. rewrite Hshape, shape_at_0, bind_Ok, Hb. reflexivity.
    + unfold MSE_loss. cbn [MSE_loss_reduction py_is_none negb].
      rewrite Hshape, shape_at_0, !bind_Ok, Hb. reflexivity.
Qed.

(** X4.  The two aggregators differ in the criterion only.  When the
    configuration gives the same reduction under [loss_function.mse] and
    [loss_function.l1], [L1_loss] and [MSE_loss] called with one criterion
    are the same function of the tensors, errors included; so are they
    without a configuration. *)
Theorem L1_loss_is_MSE_loss
    (criterion : pyval -> tensor -> tensor -> result tensor)
    (inp target : tensor) (params reduction : pyval) :
  py_path params ["loss_function"; "mse"; "reduction"] = Ok reduction ->
  py_path params ["loss_function"; "l1"; "reduction"] = Ok reduction ->
  L1_loss criterion inp target params = MSE_loss criterion inp target params
  /\
  L1_loss criterion inp target PNone = MSE_loss criterion inp target PNone.
Proof.
  intros Hmse Hl1. split; [|reflexivity].
  unfold L1_loss, MSE_loss.
  rewrite (MSE_loss_reduction_configured _ _ Hmse), bind_Ok.
  destruct (shape_at (t_shape inp) 0) as [batch|e]; [|reflexivity].
  rewrite !bind_Ok. f_equal.
  destruct (batch =? 1), (negb (py_is_none params)); try reflexivity.
  - rewrite Hl1, bind_Ok. reflexivity.
  - destruct (py_path params ["model"; "num_classes"]) as [nc|e]; [|reflexivity].
    rewrite !bind_Ok. destruct (py_range nc) as [classes|e]; [|reflexivity].
    rewrite !bind_Ok. apply for_loop_ext. intros i s.
    destruct (t_select inp i) as [x|e]; [|reflexivity]. rewrite !bind_Ok.
    destruct (t_select target i) as [y|e]; [|reflexivity]. rewrite !bind_Ok.
    rewrite Hmse, bind_Ok. reflexivity.
Qed.

(** X5.  The single-sample branch of [L1_loss] needs the ["l1"] entry.  For
    an input with one sample and a configuration whose [loss_function] has
    no ["l1"] entry the call raises [KeyError('l1')], whatever the tensors
    hold and whether or not there is an ["mse"] entry. *)
Theorem L1_loss_single_needs_l1 (inp target : tensor) (params : pyval)
    (lf : list (pykey * pyval)) (rest : list nat) :
  t_shape inp = 1 :: rest ->
  py_is_none params = false ->
  py_getitem params (KStr "loss_function") = Ok (PDict lf) ->
  dict_find lf (KStr "l1") = None ->
  L1_loss L1Loss inp target params = Raise (KeyError (KStr "l1")).
Proof.
  intros Hshape Hnone Hlf Hl1. unfold L1_loss.
  rewrite Hshape, shape_at_0, !bind_Ok. cbn [Nat.eqb]. rewrite Hnone. cbn [negb].
  rewrite py_path_cons, Hlf, bind_Ok, py_path_cons. cbn [py_getitem].
  rewrite Hl1. reflexivity.
Qed.

(** X6.  The reduction of [MSE_loss].  With a configuration whose
    [loss_function] is a dictionary, the reduction is ["mean"] when there
    is no ["mse"] entry or the entry is not a dictionary, and the entry's
    ["reduction"] otherwise, a missing ["reduction"] being a [KeyError].
    When [loss_function] is a string that contains ["mse"], the lookup
    subscripts the string and every call of [MSE_loss] raises
    [TypeError]. *)
Theorem MSE_loss_reduction_policy (params : pyval) :
  py_is_none params = false ->
  (forall lf,
      py_getitem params (KStr "loss_function") = Ok (PDict lf) ->
      MSE_loss_reduction params
      = match dict_find lf (KStr "mse") with
        | Some (PDict entry) =>
            match dict_find entry (KStr "reduction") with
            | Some r => Ok r
            | None => Raise (KeyError (KStr "reduction"))
            end
        | _ => Ok (PStr "mean")
        end)
  /\
  (forall s,
      py_getitem params (KStr "loss_function") = Ok (PStr s) ->
      (str_contains "mse" s = false ->
       MSE_loss_reduction params = Ok (PStr "mean"))
      /\
      (str_contains "mse" s = true ->
       forall inp target,
         MSE_loss MSELoss inp target params
         = Raise (TypeError "string indices must be integers"))).
Proof.
  intros Hnone. split.
  - intros lf Hlf. unfold MSE_loss_reduction. rewrite Hnone. cbn [negb].
    rewrite Hlf, bind_Ok. cbn [py_contains]. rewrite bind_Ok.
    destruct (dict_find lf (KStr "mse")) as [mse|] eqn:Hmse; [|reflexivity].
    assert (Hpath : py_path params ["loss_function"; "mse"] = Ok mse).
    { rewrite py_path_cons, Hlf, bind_Ok, py_path_cons.
      unfold py_getitem. rewrite Hmse. reflexivity. }
    change ["loss_function"; "mse"; "reduction"]
      with (["loss_function"; "mse"] ++ ["reduction"]).
    rewrite py_path_app, Hpath, !bind_Ok.
    destruct mse as [|z|f|s|l|entry]; try reflexivity.
    cbn [py_is_dict]. rewrite py_path_cons. unfold py_getitem.
    destruct (dict_find entry (KStr "reduction")); reflexivity.
  - intros s Hlf. split.
    + intros Hs. unfold MSE_loss_reduction. rewrite Hnone. cbn [negb].
      rewrite Hlf, bind_Ok. cbn [py_contains]. rewrite Hs. reflexivity.
    + intros Hs inp target. unfold MSE_loss, MSE_loss_reduction.
      rewrite Hnone. cbn [negb].
      rewrite Hlf, bind_Ok. cbn [py_contains]. rewrite Hs, bind_Ok.
      rewrite !py_path_cons, Hlf, !bind_Ok. reflexivity.
Qed.
End RegressionEdges.

(** * Further facts about the cross-entropy losses *)

Section CrossEntropyEdges.
Context `{Torch}.
Variable one_hot : tensor -> pyval -> result tensor.


(** X7.  The first class that fails.  With weights, when the classes
    [0 .. j-1] give the weighted losses [products], whose running sum is
    defined, and the weighted loss of class [j] raises (a slice out of
    range, [CCE_Type] raising, no weight for the class), [CCE_Generic]
    raises that same error. *)
Theorem CCE_Generic_first_failing_class (out target hot : tensor)
    (params weights class_list : pyval) (n j : nat)
    (CCE_Type : tensor -> tensor -> result tensor) (products : list tensor)
    (acc : pyobj) (e : pyerr) :
  py_getitem params (KStr "weights") = Ok weights ->
  py_is_none weights = false ->
  py_path params ["model"; "class_list"] = Ok class_list ->
  py_len class_list = Ok n ->
  one_hot target class_list = Ok hot ->
  j < n ->
  values_at (weighted_class CCE_Type weights out (t_type_as hot out)) j products ->
  py_sum products = Ok acc ->
  weighted_class CCE_Type weights out (t_type_as hot out) j = Raise e ->
  CCE_Generic one_hot out target params CCE_Type = Raise e.
Proof.
  intros Hw Hnone Hcl Hn Hhot Hj Hall Hsum Hje.
  unfold CCE_Generic, CCE_Generic_loop.
  rewrite Hcl, !bind_Ok, Hhot, !bind_Ok, Hn, !bind_Ok, (seq_split j n Hj).
  rewrite (for_loop_raises_at _ (fun l acc => py_iadd acc l) _
             (CCE_body_weighted out (t_type_as hot out) params weights
                CCE_Type Hw Hnone) _ _ _ _ _ _ e Hall Hsum Hje).
  reflexivity.
Qed.
End CrossEntropyEdges.

(** * The guard of [CE] and [CE_Logits] on binary32 *)

Section GuardOnFloats.
Import F32.

Lemma concat_chunks {A : Type} (n k : nat) (l : list A) :
  List.length l = k * n -> List.concat (chunks n k l) = l.
Proof.
  revert l. induction k as [|k IH]; intros l Hl; cbn [chunks List.concat].
  - destruct l; [reflexivity|discriminate Hl].
  - rewrite IH; [apply firstn_skipn|]. rewrite length_skipn. lia.
Qed.

Lemma chunks_length {A : Type} (n k : nat) (l c : list A) :
  List.length l = k * n -> In c (chunks n k l) -> List.length c = n.
Proof.
  revert l. induction k as [|k IH]; intros l Hl; cbn [chunks].
  - intros [].
  - intros [<-|Hin].
    + rewrite length_firstn. lia.
    + apply (IH (skipn n l)); [|exact Hin]. rewrite length_skipn. lia.
Qed.

(** Expanding a tensor to its own shape leaves its items as they are. *)
Lemma expand_same {A : Type} (s : list nat) (l : list A) :
  List.length l = numel s -> expand s s l = l.
Proof.
  revert l. induction s as [|f s IH]; intros l Hl; cbn [expand].
  - reflexivity.
  - rewrite Nat.eqb_refl. cbn [numel fold_right] in Hl. fold (numel s) in Hl.
    rewrite <- (concat_chunks (numel s) f l) at 2 by exact Hl.
    f_equal. rewrite <- (map_id (chunks (numel s) f l)) at 2.
    apply map_ext_in. intros c Hc. apply IH.
    eapply chunks_length; eassumption.
Qed.

Lemma expand_to_same (s : list nat) (l : list scalar) :
  List.length l = numel s -> expand_to s s l = l.
Proof.
  intros Hl. unfold expand_to, pad_shape. rewrite Nat.sub_diag.
  cbn [repeat app]. apply expand_same. exact Hl.
Qed.

Lemma broadcast_rev_same (s : list nat) : broadcast_rev s s = Some s.
Proof.
  induction s as [|x s IH]; cbn [broadcast_rev]; [reflexivity|].
  rewrite IH, Nat.eqb_refl. reflexivity.
Qed.

Lemma broadcast_shapes_same (s : list nat) : broadcast_shapes s s = Some s.
Proof.
  unfold broadcast_shapes. rewrite broadcast_rev_same. cbn [option_map].
  rewrite rev_involutive. reflexivity.
Qed.

Lemma zip_with_map_self {A B C : Type} (f : B -> A -> C) (g : A -> B)
    (l : list A) :
  zip_with f (map g l) l = map (fun x => f (g x) x) l.
Proof.
  induction l as [|x l IH]; cbn [map zip_with]; [reflexivity|].
  rewrite IH. reflexivity.
Qed.

(** Equality of binary32 values is identity, up to the sign of zero. *)
Lemma SFeqb_true (a b : float32) :
  SFeqb a b = true ->
  a = b \/ exists s s', a = S754_zero s /\ b = S754_zero s'.
Proof.
  unfold SFeqb, SFcompare.
  destruct a as [sa|sa| |sa ma ea], b as [sb|sb| |sb mb eb];
    try discriminate;
    try (destruct sa; discriminate); try (destruct sb; discriminate).
  - intros _. right. exists sa, sb. split; reflexivity.
  - destruct sa, sb; try discriminate; intros _; left; reflexivity.
  - destruct sa, sb; try discriminate;
      destruct (Z.compare ea eb) eqn:He; try discriminate;
      apply Z.compare_eq in He; subst eb;
      destruct (Pos.compare_cont Eq ma mb) eqn:Hm; try discriminate;
      apply Pos.compare_eq in Hm; subst mb; intros _; left; reflexivity.
Qed.

(** The values 0 to 255 survive the cast to [uint8] and back. *)
Lemma byte_round_trip (k : Z) :
  (0 <= k < 256)%Z ->
  (f32_trunc (f32_of_Z k) mod 256)%Z = k.
Proof.
  intros Hk.
  assert (Hall : forallb (fun k => (f32_trunc (f32_of_Z k) mod 256 =? k)%Z)
                   (map Z.of_nat (seq 0 256)) = true) by (vm_compute; reflexivity).
  rewrite forallb_forall in Hall. apply Z.eqb_eq. apply Hall.
  replace k with (Z.of_nat (Z.to_nat k)) by lia.
  apply in_map. apply in_seq. lia.
Qed.

(** The test the guard applies to one item: the item equals its own cast
    to [uint8], which holds exactly of the whole numbers 0 to 255. *)
Lemma guard_item (x : float32) :
  SFeqb (f32_of_Z (f32_trunc x mod 256)) x = true <-> whole_byte x.
Proof.
  split.
  - intros Hx. exists (f32_trunc x mod 256)%Z. split; [|exact Hx].
    apply Z.mod_pos_bound. lia.
  - intros (k & Hk & Hx). destruct (SFeqb_true _ _ Hx) as [<-|(s & s' & Hz & ->)].
    + rewrite (byte_round_trip k Hk). exact Hx.
    + destruct s'; reflexivity.
Qed.

(** What the guard computes on a [Float32] target. *)
Lemma guard_on_floats (s : list nat) (xs : list float32) :
  List.length xs = numel s ->
  equal (cast_tensor UInt8 (float_tensor s xs)) (float_tensor s xs)
  = Ok (mk_tensor Bool s
          (map (fun x => SInt (if SFeqb (f32_of_Z (f32_trunc x mod 256)) x
                               then 1 else 0)) xs)).
Proof.
  intros Hl. unfold equal, float_tensor, cast_tensor. cbn [shape data dtype_of].
  rewrite broadcast_shapes_same.
  rewrite !expand_to_same by (rewrite ?length_map; exact Hl).
  unfold result_type, is_dim. cbn [shape dtype_of]. rewrite eqb_reflx.
  cbn [promote rank Nat.ltb Nat.leb].
  rewrite zip_with_map_self, map_map. reflexivity.
Qed.

Lemma forallb_of_map {A B : Type} (f : B -> bool) (g : A -> B) (l : list A) :
  forallb f (map g l) = forallb (fun x => f (g x)) l.
Proof.
  induction l as [|x l IH]; cbn [map forallb]; [reflexivity|].
  rewrite IH. reflexivity.
Qed.

Lemma forallb_false_at {A : Type} (f : A -> bool) (l : list A) (x : A) :
  In x l -> f x = false -> forallb f l = false.
Proof.
  intros Hin Hx. destruct (forallb f l) eqn:Hall; [|reflexivity].
  rewrite forallb_forall in Hall. rewrite (Hall x Hin) in Hx. discriminate Hx.
Qed.

(** X8.  Which targets pass the guard.  On a [Float32] target, [CE] and
    [CE_Logits] hand the tensors to the criterion when every item of the
    target is a whole number from 0 to 255, and raise the [ValueError]
    when some item is not (a fraction, a negative number, a number above
    255, an infinity or a NaN). *)
Theorem guard_accepts_whole_bytes_only
    (BCELoss BCEWithLogitsLoss : tensor -> tensor -> result tensor)
    (out : tensor) (s : list nat) (xs : list float32) :
  List.length xs = numel s ->
  ((forall x, In x xs -> whole_byte x) ->
   CE (H := backend) BCELoss out (float_tensor s xs)
   = BCELoss (cast_tensor Float32 (flatten out))
       (cast_tensor Float32 (flatten (float_tensor s xs)))
   /\
   CE_Logits (H := backend) BCEWithLogitsLoss out (float_tensor s xs)
   = BCEWithLogitsLoss (flatten out) (flatten (float_tensor s xs)))
  /\
  (forall x, In x xs -> ~ whole_byte x ->
   CE (H := backend) BCELoss out (float_tensor s xs)
   = Raise (ValueError "Target tensor must be binary (0 or 1)")
   /\
   CE_Logits (H := backend) BCEWithLogitsLoss out (float_tensor s xs)
   = Raise (ValueError "Target tensor must be binary (0 or 1)")).
Proof.
  intros Hl.
  pose proof (CE_guard (H := backend) BCEWithLogitsLoss BCELoss out
                (float_tensor s xs) _ (guard_on_floats s xs Hl)) as Hguard.
  cbn [t_all backend] in Hguard. unfold all in Hguard. cbn [data] in Hguard.
  rewrite forallb_of_map in Hguard.
  split.
  - intros Hall.
    replace (forallb _ xs) with true in Hguard; [exact Hguard|].
    symmetry. apply forallb_forall. intros x Hx.
    apply Hall, guard_item in Hx. rewrite Hx. reflexivity.
  - intros x Hx Hnot.
    replace (forallb _ xs) with false in Hguard; [exact Hguard|].
    symmetry. apply (forallb_false_at _ _ x Hx).
    destruct (SFeqb (f32_of_Z (f32_trunc x mod 256)) x) eqn:Hi; [|reflexivity].
    exfalso. apply Hnot. apply guard_item. exact Hi.
Qed.
End GuardOnFloats.

(** * Further facts about the weights of [CEL] and the heap *)

Section WeightsAndHeap.
Context `{Torch}.
Variable CrossEntropyLoss : option tensor -> tensor -> tensor -> result tensor.
Variable L1Loss : pyval -> tensor -> tensor -> result tensor.
Variable MSELoss : pyval -> tensor -> tensor -> result tensor.

(** X9.  [CEL] takes its weights from a mapping only.  With the weights
    given as a list, which [CCE_Generic] accepts, of as many items as the
    output has classes, the length check passes and
    [params["weights"].values()] raises [AttributeError]; the criterion is
    not called. *)
Theorem CEL_weights_must_be_mapping (out target : tensor) (params : pyval)
    (ws : list pyval) (c : nat) :
  py_getitem params (KStr "weights") = Ok (PList ws) ->
  shape_at (t_shape out) (-1) = Ok c ->
  List.length ws = c ->
  CEL CrossEntropyLoss out target params = Raise (AttributeError "values").
Proof.
  intros Hw Hc Hlen. unfold CEL.
  rewrite (py_get_of_getitem _ _ _ Hw), bind_Ok.
  cbn [py_is_none]. rewrite Hw, bind_Ok. cbn [py_len].
  rewrite bind_Ok, Hc, bind_Ok.
  replace (c =? List.length ws) with true
    by (symmetry; apply Nat.eqb_eq; congruence).
  reflexivity.
Qed.

(** X10.  The regression losses leave the heap alone.  Whether a call of
    [MSE_loss] or [L1_loss] returns or raises, the heap after it is the
    heap before it followed by the objects the call allocated: no object
    that existed before the call, the arguments among them, is updated or
    made unreadable. *)
Theorem regression_losses_only_allocate (params : pyval) (vi vt : tensor)
    (h : heap) (inp target : nat) :
  well_formed h = true ->
  value_at h inp = Some vi -> value_at h target = Some vt ->
  (exists new, snd (MSE_loss_run MSELoss inp target params h) = h ++ new)
  /\
  (exists new, snd (L1_loss_run L1Loss inp target params h) = h ++ new).
Proof.
  intros Hwf Hi Ht. split.
  - exact (proj1 (proj2 (MSE_loss_run_pure MSELoss params vi vt h inp target
                           Hwf Hi Ht))).
  - exact (proj1 (proj2 (L1_loss_run_pure L1Loss params vi vt h inp target
                           Hwf Hi Ht))).
Qed.
End WeightsAndHeap.

(** * What the aggregators return *)

Section ReturnTypes.
Context `{Torch}.
Variables L1Loss MSELoss : pyval -> tensor -> tensor -> result tensor.
Variable one_hot : tensor -> pyval -> result tensor.






(** The initial [0] divided by a Python value. *)
Lemma zero_truediv (d v : pyval) :
  py_truediv (PInt 0) d = Ok v ->
  exists f, v = PFloat f.
Proof.
  unfold py_truediv. destruct (py_number (PInt 0)); [|discriminate].
  destruct (py_number d); [|discriminate].
  destruct (f64_is_zero f0); [discriminate|].
  intros [= <-]. eexists; reflexivity.
Qed.



End ReturnTypes.

(** * A configuration that spells out the defaults *)

Section SpelledOutDefaults.
Context `{Torch}.
Variables L1Loss MSELoss : pyval -> tensor -> tensor -> result tensor.

(** X13.  A configuration that names the defaults behaves as no
    configuration.  With [num_classes] equal to [inp.shape[1]], scaling
    factor [1] and reduction ["mean"], [MSE_loss] and [L1_loss] give on the
    configuration what they give on [None], result or exception. *)
Theorem defaults_spelled_out (inp target : tensor) (params : pyval)
    (channels : nat) :
  py_is_none params = false ->
  shape_at (t_shape inp) 1 = Ok channels ->
  py_path params ["model"; "num_classes"] = Ok (PInt (Z.of_nat channels)) ->
  py_getitem params (KStr "scaling_factor") = Ok (PInt 1) ->
  (MSE_loss_reduction params = Ok (PStr "mean") ->
   MSE_loss MSELoss inp target params = MSE_loss MSELoss inp target PNone)
  /\ (py_path params ["loss_function"; "l1"; "reduction"] = Ok (PStr "mean") ->
      py_path params ["loss_function"; "mse"; "reduction"] = Ok (PStr "mean") ->
      L1_loss L1Loss inp target params = L1_loss L1Loss inp target PNone).
Proof.
  intros Hcfg Hch Hnc Hsf. split.
  - intros Hred. unfold MSE_loss. rewrite Hred, Hcfg.
    change (MSE_loss_reduction PNone) with (Ok (A := pyval) (PStr "mean")).
    rewrite !bind_Ok. cbn [py_is_none negb].
    destruct (shape_at (t_shape inp) 0) as [batch|e]; [|reflexivity].
    rewrite !bind_Ok, Hnc, Hch.
    destruct (batch =? 1); [rewrite Hsf, !bind_Ok; reflexivity|].
    rewrite !bind_Ok. cbn [py_range]. rewrite Nat2Z.id, !bind_Ok.
    rewrite (for_loop_ext _
               (fun i acc =>
                  x <- t_select inp i ;;
                  y <- t_select target i ;;
                  l <- MSE MSELoss x y default_reduction default_scaling_factor ;;
                  py_iadd acc l)); [reflexivity|].
    intros i s. destruct (t_select inp i); [|reflexivity].
    destruct (t_select target i); [|reflexivity].
    rewrite !bind_Ok, Hsf, bind_Ok. reflexivity.
  - intros Hl1 Hmse. unfold L1_loss. rewrite Hcfg. cbn [py_is_none negb].
    destruct (shape_at (t_shape inp) 0) as [batch|e]; [|reflexivity].
    rewrite !bind_Ok, Hnc, Hch.
    destruct (batch =? 1); [rewrite Hl1, bind_Ok, Hsf, !bind_Ok; reflexivity|].
    rewrite !bind_Ok. cbn [py_range]. rewrite Nat2Z.id, !bind_Ok.
    rewrite (for_loop_ext _
               (fun i acc =>
                  x <- t_select inp i ;;
                  y <- t_select target i ;;
                  l <- L1 L1Loss x y default_reduction default_scaling_factor ;;
                  py_iadd acc l)); [reflexivity|].
    intros i s. destruct (t_select inp i); [|reflexivity].
    destruct (t_select target i); [|reflexivity].
    rewrite !bind_Ok, Hmse, Hsf, !bind_Ok. reflexivity.
Qed.
End SpelledOutDefaults.

(** * A configuration without weights *)

Section MissingWeights.
Context `{Torch}.
Variable CrossEntropyLoss : option tensor -> tensor -> tensor -> result tensor.
Variable one_hot : tensor -> pyval -> result tensor.

(** X14.  A configuration without a ["weights"] key.  [CEL] reads the key
    with [get] and goes on without weights; [CCE_Generic] subscripts the
    configuration, so it never returns, and it raises [KeyError('weights')]
    once the class list is empty or the loss of class 0 has been
    computed. *)
Theorem missing_weights_key (out target : tensor) (d : list (pykey * pyval))
    (CCE_Type : tensor -> tensor -> result tensor) :
  dict_find d (KStr "weights") = None ->
  CEL CrossEntropyLoss out target (PDict d)
  = CrossEntropyLoss None out (CEL_target target)
  /\
  (forall v, CCE_Generic one_hot out target (PDict d) CCE_Type <> Ok v)
  /\
  (forall class_list n hot,
      py_path (PDict d) ["model"; "class_list"] = Ok class_list ->
      py_len class_list = Ok n ->
      one_hot target class_list = Ok hot ->
      (n = 0 \/ exists l, per_class CCE_Type out (t_type_as hot out) 0 = Ok l) ->
      CCE_Generic one_hot out target (PDict d) CCE_Type
      = Raise (KeyError (KStr "weights"))).
Proof.
  intros Hd.
  assert (Hw : py_getitem (PDict d) (KStr "weights") = Raise (KeyError (KStr "weights"))).
  { cbn [py_getitem]. rewrite Hd. reflexivity. }
  split; [|split].
  - unfold CEL, CEL_target. cbn [py_get]. rewrite Hd, bind_Ok. reflexivity.
  - intros v Hret. unfold CCE_Generic in Hret.
    apply bind_inv_Ok in Hret. destruct Hret as (acc & _ & Hret).
    apply bind_inv_Ok in Hret. destruct Hret as (w & Hw' & _).
    rewrite Hw in Hw'. discriminate Hw'.
  - intros class_list n hot Hcl Hn Hhot Hfirst.
    unfold CCE_Generic, CCE_Generic_loop.
    rewrite Hcl, !bind_Ok, Hhot, !bind_Ok, Hn, !bind_Ok.
    destruct Hfirst as [->|[l Hl]].
    + cbn [seq for_loop]. rewrite bind_Ok, Hw. reflexivity.
    + destruct n as [|n]; [cbn [seq for_loop]; rewrite bind_Ok, Hw; reflexivity|].
      cbn [seq for_loop]. unfold per_class in Hl.
      destruct (t_select out 0) as [x|e]; [|discriminate Hl].
      cbn [bind] in Hl |- *.
      destruct (t_select (t_type_as hot out) 0) as [y|e]; [|discriminate Hl].
      cbn [bind] in Hl |- *. rewrite Hl, !bind_Ok, Hw. reflexivity.
Qed.
End MissingWeights.

(** * The further facts on the binary32 backend *)

Section EdgeRuns.
Import Samples EdgeSamples.
#[local] Existing Instance Samples.backend.

Ltac run := vm_compute; reflexivity.
Ltac run_values :=
  unfold values_at; repeat (constructor; [run|]); constructor.

(** Four classes asked of an input with three channels: the classes 0, 1
    and 2 give their losses and the slice of class 3 raises; [MSE_loss]
    does so without an ["mse"] entry too. *)
Lemma first_failing_class_witness :
  (MSE_loss F32.MSELoss inp target (config_classes 4)
   = Raise (IndexError "index is out of bounds for dimension 1")
   /\
   L1_loss F32.L1Loss inp target (config_classes 4)
   = Raise (IndexError "index is out of bounds for dimension 1"))
  /\
  MSE_loss F32.MSELoss inp target four_classes_no_mse
  = Raise (IndexError "index is out of bounds for dimension 1").
Proof.
  split.
  - destruct (first_failing_class (H := backend) F32.L1Loss F32.MSELoss inp
                target (config_classes 4) (PInt 1) 2 [3; 2] 4 3
                (IndexError "index is out of bounds for dimension 1"))
      as [Hmse Hl1];
      [reflexivity | lia | reflexivity | reflexivity | reflexivity
      | cbn; lia |].
    split.
    + apply (Hmse (PStr "mean") [ratio 1 1; ratio 4 1; ratio 9 1]
               (OTensor (ratio 14 1)));
        [run | run_values | run | run].
    + apply (Hl1 (PStr "mean") [ratio 1 1; ratio 2 1; ratio 3 1]
               (OTensor (ratio 6 1)));
        [run | run_values | run | run].
  - destruct (first_failing_class (H := backend) F32.L1Loss F32.MSELoss inp
                target four_classes_no_mse (PInt 1) 2 [3; 2] 4 3
                (IndexError "index is out of bounds for dimension 1"))
      as [Hmse _];
      [reflexivity | lia | reflexivity | reflexivity | reflexivity
      | cbn; lia |].
    apply (Hmse (PStr "mean") [ratio 1 1; ratio 4 1; ratio 9 1]
             (OTensor (ratio 14 1)));
      [run | run_values | run | run].
Defined.

(** No classes in the configuration, and no channels in the input. *)
Lemma no_classes_divide_by_zero_witness :
  (MSE_loss F32.MSELoss inp target (config_classes 0) = Raise ZeroDivisionError
   /\ L1_loss F32.L1Loss inp target (config_classes 0) = Raise ZeroDivisionError)
  /\
  (MSE_loss F32.MSELoss no_channels no_channels PNone = Raise ZeroDivisionError
   /\ L1_loss F32.L1Loss no_channels no_channels PNone = Raise ZeroDivisionError).
Proof.
  split.
  - destruct (no_classes_divide_by_zero (H := backend) F32.L1Loss F32.MSELoss
                inp target 2 [3; 2] eq_refl) as [Hcfg _]; [lia|].
    destruct (Hcfg (config_classes 0) (PStr "mean") eq_refl eq_refl)
      as [Hmse Hl1].
    split; [apply Hmse; reflexivity | exact Hl1].
  - destruct (no_classes_divide_by_zero (H := backend) F32.L1Loss F32.MSELoss
                no_channels no_channels 2 [0; 2] eq_refl) as [_ Hnone]; [lia|].
    exact (Hnone [2] eq_refl).
Defined.

(** A 0-dimensional input, and a 1-dimensional one of two samples. *)
Lemma too_few_dimensions_witness :
  (L1_loss F32.L1Loss (ratio 1 1) (ratio 1 1) params
   = Raise (IndexError "tuple index out of range")
   /\
   MSE_loss F32.MSELoss (ratio 1 1) (ratio 1 1) params
   = Raise (IndexError "tuple index out of range"))
  /\
  (L1_loss F32.L1Loss labels3 labels3 PNone
   = Raise (IndexError "tuple index out of range")
   /\
   MSE_loss F32.MSELoss labels3 labels3 PNone
   = Raise (IndexError "tuple index out of range")).
Proof.
  destruct (too_few_dimensions (H := backend) F32.L1Loss F32.MSELoss
              (ratio 1 1) (ratio 1 1)) as [Hscalar _].
  destruct (Hscalar eq_refl params) as [Hl1 Hmse].
  destruct (too_few_dimensions (H := backend) F32.L1Loss F32.MSELoss
              labels3 labels3) as [_ Hvector].
  split.
  - split; [exact Hl1 | apply (Hmse (PStr "mean")); reflexivity].
  - apply (Hvector 2); [reflexivity | lia].
Defined.

(** [L1_loss] and [MSE_loss] with the squared-error criterion. *)
Lemma L1_loss_is_MSE_loss_witness :
  L1_loss F32.MSELoss inp target params = MSE_loss F32.MSELoss inp target params
  /\
  L1_loss F32.MSELoss inp target PNone = MSE_loss F32.MSELoss inp target PNone.
Proof.
  exact (L1_loss_is_MSE_loss (H := backend) F32.MSELoss inp target params
           (PStr "mean") eq_refl eq_refl).
Defined.

(** One sample and a configuration with an ["mse"] entry only. *)
Lemma L1_loss_single_needs_l1_witness :
  L1_loss F32.L1Loss inp1 target1 params_mse_only = Raise (KeyError (KStr "l1")).
Proof.
  exact (L1_loss_single_needs_l1 (H := backend) F32.L1Loss inp1 target1
           params_mse_only [(KStr "mse", mean_entry)] [3; 2]
           eq_refl eq_refl eq_refl eq_refl).
Defined.

(** A configuration that asks for the sum, and one whose [loss_function]
    is the string ["mse"]. *)
Lemma MSE_loss_reduction_policy_witness :
  MSE_loss_reduction params_sum = Ok (PStr "sum")
  /\
  MSE_loss F32.MSELoss inp target params_named
  = Raise (TypeError "string indices must be integers").
Proof.
  split.
  - exact (proj1 (MSE_loss_reduction_policy (H := backend) F32.MSELoss params_sum
                    eq_refl)
             [(KStr "mse", PDict [(KStr "reduction", PStr "sum")])] eq_refl).
  - exact (proj2 (proj2 (MSE_loss_reduction_policy (H := backend) F32.MSELoss
                           params_named eq_refl)
                    "mse" eq_refl) eq_refl inp target).
Defined.

(** One weight for two classes: class 0 gives [1 / 2 * 0.5] and
    [weights[1]] raises. *)
Lemma CCE_Generic_first_failing_class_witness :
  CCE_Generic F32.one_hot out2 labels2 (cce_params one_weight) mse_mean
  = Raise (IndexError "list index out of range").
Proof.
  apply (CCE_Generic_first_failing_class (H := backend) F32.one_hot out2 labels2
           hot2 (cce_params one_weight) one_weight class_list2 2 1 mse_mean
           [ratio 1 4] (OTensor (ratio 1 4)));
    [reflexivity | reflexivity | reflexivity | reflexivity | run | lia
    | run_values | run | run].
Defined.

(** The targets 2 and 255 are handed to the criterion, one half is
    refused. *)
Lemma guard_accepts_whole_bytes_only_witness :
  CE no_binary_criterion out3 (float_tensor [2] bytes)
  = no_binary_criterion (F32.cast_tensor F32.Float32 (F32.flatten out3))
      (F32.cast_tensor F32.Float32 (F32.flatten (float_tensor [2] bytes)))
  /\
  CE_Logits no_binary_criterion out3 (float_tensor [2; 1] [F32.f32_of_Z 1; half])
  = Raise (ValueError "Target tensor must be binary (0 or 1)").
Proof.
  split.
  - apply (proj1 (guard_accepts_whole_bytes_only no_binary_criterion
                    no_binary_criterion out3 [2] bytes eq_refl)).
    intros x [<-|[<-|[]]]; [exists 2%Z | exists 255%Z]; (split; [lia | run]).
  - apply (proj2 (guard_accepts_whole_bytes_only no_binary_criterion
                    no_binary_criterion out3 [2; 1] [F32.f32_of_Z 1; half]
                    eq_refl) half).
    + right. left. reflexivity.
    + intros Hbyte. apply guard_item in Hbyte. vm_compute in Hbyte.
      discriminate Hbyte.
Defined.

(** Three weights in a list for an output of three classes. *)
Lemma CEL_weights_must_be_mapping_witness :
  CEL no_criterion out3 labels3 weight_list = Raise (AttributeError "values").
Proof.
  exact (CEL_weights_must_be_mapping (H := backend) no_criterion out3 labels3
           weight_list [F32.py_float 1 0; F32.py_float 1 1; F32.py_float 1 0] 3
           eq_refl eq_refl eq_refl).
Defined.

(** The first heap after a call starts with the first heap. *)
Lemma regression_losses_only_allocate_witness :
  (exists new, snd (MSE_loss_run F32.MSELoss 0 1 params heap1) = heap1 ++ new)
  /\
  (exists new, snd (L1_loss_run F32.L1Loss 0 1 params heap1) = heap1 ++ new).
Proof.
  exact (regression_losses_only_allocate (H := backend) F32.L1Loss F32.MSELoss
           params inp target heap1 0 1 eq_refl eq_refl eq_refl).
Defined.



(** The configuration [params] names the defaults for [inp]. *)
Lemma defaults_spelled_out_witness :
  MSE_loss F32.MSELoss inp target params = MSE_loss F32.MSELoss inp target PNone
  /\
  L1_loss F32.L1Loss inp target params = L1_loss F32.L1Loss inp target PNone.
Proof.
  destruct (defaults_spelled_out (H := backend) F32.L1Loss F32.MSELoss inp target
              params 3 eq_refl eq_refl eq_refl eq_refl) as [Hmse Hl1].
  split; [apply Hmse; reflexivity | apply Hl1; reflexivity].
Defined.
(** The two classes of [out2] and no weights. *)
Lemma missing_weights_key_witness :
  CEL no_criterion out2 labels2 (PDict unweighted)
  = no_criterion None out2 (CEL_target labels2)
  /\
  CCE_Generic F32.one_hot out2 labels2 (PDict unweighted) mse_mean
  = Raise (KeyError (KStr "weights")).
Proof.
  destruct (missing_weights_key (H := backend) no_criterion F32.one_hot out2
              labels2 unweighted mse_mean eq_refl) as (Hcel & _ & Hcce).
  split; [exact Hcel|].
  apply (Hcce class_list2 2 hot2); [reflexivity | reflexivity | run |].
  right. exists (ratio 1 2). run.
Defined.

End EdgeRuns.
